(** * ara_webscraping: a shallow embedding of [src/ara_webscraping.py]

    The script drives a browser over the regional pages of a retail site,
    picks one network exchange out of the performance log, decodes its JSON
    body and flattens every product into a row of a table.

    The embedding follows the source function by function.  Python values
    are an inductive type, dictionaries are association lists in insertion
    order, exceptions are the error side of a small result monad, and the
    collaborators the script talks to (browser, debugging protocol, JSON
    decoder, HTTP client, clock) are the fields of a record [World]. *)

From Stdlib Require Import List String Ascii ZArith Lia Bool Arith.
From Stdlib Require Import Numbers.DecimalString Sorting.Permutation.
Import ListNotations.

Local Open Scope list_scope.
Local Open Scope string_scope.

(** ** Exceptions and the result monad *)

Inductive exn : Type :=
| UnboundLocalError
| IndexError
| KeyError
| TypeError
| AttributeError
| ValueError
| JSONDecodeError
| WebDriverException
| RequestException.

Inductive result (A : Type) : Type :=
| Ok (a : A)
| Raise (e : exn).

Arguments Ok {A} a.
Arguments Raise {A} e.

Definition bind {A B : Type} (m : result A) (f : A -> result B) : result B :=
  match m with
  | Ok a => f a
  | Raise e => Raise e
  end.

Declare Scope py_scope.
Delimit Scope py_scope with py.
Notation "x <- m ;; k" := (bind m (fun x => k))
  (at level 61, m at next level, right associativity) : py_scope.
Notation "' pat <- m ;; k" := (bind m (fun x => match x with pat => k end))
  (at level 61, pat pattern, m at next level, right associativity) : py_scope.
Local Open Scope py_scope.

(** A comprehension or a [for] loop that builds a list: the elements are
    visited from left to right and the first exception ends the loop. *)
Fixpoint mapM {A B : Type} (f : A -> result B) (l : list A) : result (list B) :=
  match l with
  | [] => Ok []
  | a :: l' =>
      b <- f a ;;
      bs <- mapM f l' ;;
      Ok (b :: bs)
  end.

(** ** Python values *)

(** [datetime.datetime]: the fields of a naive timestamp. *)
Record datetime : Type := mkDatetime {
  dt_year : nat;
  dt_month : nat;
  dt_day : nat;
  dt_hour : nat;
  dt_minute : nat;
  dt_second : nat;
  dt_microsecond : nat
}.

(** The values the script handles: what [json.loads] produces (floats
    apart, which the catalog does not use), the timestamp stored in every
    row, and the tuple the category ends up in. *)
#[warnings="-register-all"]
Inductive pyval : Type :=
| PNone
| PBool (b : bool)
| PInt (z : Z)
| PStr (s : string)
| PList (l : list pyval)
| PTuple (l : list pyval)
| PDict (d : list (string * pyval))
| PDatetime (t : datetime).

(** A [dict] with string keys, in insertion order. *)
Definition pydict : Type := list (string * pyval).

Fixpoint dict_lookup (d : pydict) (k : string) : option pyval :=
  match d with
  | [] => None
  | (k', v) :: d' => if String.eqb k' k then Some v else dict_lookup d' k
  end.

(** [d[k] = v]: an existing key keeps its place, a new key goes last. *)
Fixpoint dict_set (d : pydict) (k : string) (v : pyval) : pydict :=
  match d with
  | [] => [(k, v)]
  | (k', v') :: d' =>
      if String.eqb k' k then (k', v) :: d' else (k', v') :: dict_set d' k v
  end.

Definition dict_keys (d : pydict) : list string := map fst d.

(** [bool(v)], as [if v:] and [not v] use it. *)
Definition truthy (v : pyval) : bool :=
  match v with
  | PNone => false
  | PBool b => b
  | PInt z => negb (Z.eqb z 0)
  | PStr s => negb (String.eqb s "")
  | PList l => match l with [] => false | _ => true end
  | PTuple l => match l with [] => false | _ => true end
  | PDict d => match d with [] => false | _ => true end
  | PDatetime _ => true
  end.

(** [v.get(k)]: only a dict has the method; a missing key gives [None]. *)
Definition py_get (v : pyval) (k : string) : result pyval :=
  match v with
  | PDict d => match dict_lookup d k with Some x => Ok x | None => Ok PNone end
  | _ => Raise AttributeError
  end.

(** [v[k]] with a string key. *)
Definition py_getitem (v : pyval) (k : string) : result pyval :=
  match v with
  | PDict d => match dict_lookup d k with Some x => Ok x | None => Raise KeyError end
  | _ => Raise TypeError
  end.

(** [l[i]] on a list with an index that is not negative. *)
Definition list_getitem (l : list pyval) (i : nat) : result pyval :=
  match nth_error l i with
  | Some x => Ok x
  | None => Raise IndexError
  end.

(** [len(v)]. *)
Definition py_len (v : pyval) : result nat :=
  match v with
  | PStr s => Ok (String.length s)
  | PList l => Ok (List.length l)
  | PTuple l => Ok (List.length l)
  | PDict d => Ok (List.length d)
  | _ => Raise TypeError
  end.

Fixpoint chars (s : string) : list pyval :=
  match s with
  | EmptyString => []
  | String c s' => PStr (String c EmptyString) :: chars s'
  end.

(** [for x in v]: the elements a [for] loop visits. *)
Definition py_iter (v : pyval) : result (list pyval) :=
  match v with
  | PStr s => Ok (chars s)
  | PList l => Ok l
  | PTuple l => Ok l
  | PDict d => Ok (map PStr (dict_keys d))
  | _ => Raise TypeError
  end.

Definition isinstance_list (v : pyval) : bool :=
  match v with
  | PList _ => true
  | _ => false
  end.

(** ** Strings *)

(** [s.find(sub)]: the index of the first occurrence, [-1] when there is
    none. *)
Fixpoint str_find_from (i : Z) (s sub : string) : Z :=
  if String.prefix sub s then i
  else match s with
       | EmptyString => (-1)%Z
       | String _ s' => str_find_from (i + 1) s' sub
       end.

Definition str_find (s sub : string) : Z := str_find_from 0 s sub.

(** [s.replace(old, new)] for a pattern that is not empty: occurrences are
    replaced from left to right and do not overlap.  [skip] counts the
    characters of a match that are still to be dropped. *)
Fixpoint replace_go (old new : string) (skip : nat) (s : string) : string :=
  match s with
  | EmptyString => EmptyString
  | String c s' =>
      match skip with
      | S k => replace_go old new k s'
      | O =>
          if String.prefix old s
          then new ++ replace_go old new (String.length old - 1) s'
          else String c (replace_go old new 0 s')
      end
  end.

(** With an empty pattern Python puts [new] before every character and at
    the end. *)
Fixpoint replace_empty (new s : string) : string :=
  match s with
  | EmptyString => new
  | String c s' => new ++ String c (replace_empty new s')
  end.

Definition str_replace (s old new : string) : string :=
  if String.eqb old "" then replace_empty new s else replace_go old new 0 s.

Fixpoint join (sep : string) (l : list string) : string :=
  match l with
  | [] => ""
  | [x] => x
  | x :: l' => x ++ sep ++ join sep l'
  end.

Definition nat_to_string (n : nat) : string :=
  NilZero.string_of_uint (Nat.to_uint n).

Definition Z_to_string (z : Z) : string :=
  NilZero.string_of_int (Z.to_int z).

Fixpoint zeros (n : nat) : string :=
  match n with
  | O => ""
  | S n' => String "0" (zeros n')
  end.

(** [%0wd] for a number that is not negative. *)
Definition zero_pad (width n : nat) : string :=
  let digits := nat_to_string n in
  zeros (width - String.length digits) ++ digits.

Definition hex_digit (n : nat) : ascii :=
  match n with
  | 0 => "0" | 1 => "1" | 2 => "2" | 3 => "3" | 4 => "4" | 5 => "5"
  | 6 => "6" | 7 => "7" | 8 => "8" | 9 => "9" | 10 => "a" | 11 => "b"
  | 12 => "c" | 13 => "d" | 14 => "e" | _ => "f"
  end%char.

Definition has_char (c : ascii) (s : string) : bool :=
  negb (Z.eqb (str_find s (String c EmptyString)) (-1)).

(** [repr] of a string of ASCII text: single quotes unless the text has a
    single quote and no double quote; the quote, the backslash and the
    control characters are escaped.  Bytes above 127 stand for printable
    text and are kept. *)
Definition repr_quote (s : string) : ascii :=
  if has_char "'" s && negb (has_char "034" s) then "034"%char else "'"%char.

Definition repr_char (quote c : ascii) : string :=
  let n := nat_of_ascii c in
  if Ascii.eqb c quote || Ascii.eqb c "\" then String "\" (String c "")
  else if Nat.eqb n 9 then "\t"
  else if Nat.eqb n 10 then "\n"
  else if Nat.eqb n 13 then "\r"
  else if Nat.ltb n 32 || Nat.eqb n 127
       then "\x" ++ String (hex_digit (n / 16)) (String (hex_digit (n mod 16)) "")
  else String c "".

Fixpoint repr_chars (quote : ascii) (s : string) : string :=
  match s with
  | EmptyString => EmptyString
  | String c s' => repr_char quote c ++ repr_chars quote s'
  end.

Definition repr_str (s : string) : string :=
  let q := repr_quote s in
  String q (repr_chars q s ++ String q "").

(** [str(t)] of a timestamp: ISO format with a space. *)
Definition datetime_str (t : datetime) : string :=
  zero_pad 4 (dt_year t) ++ "-" ++ zero_pad 2 (dt_month t) ++ "-"
  ++ zero_pad 2 (dt_day t) ++ " " ++ zero_pad 2 (dt_hour t) ++ ":"
  ++ zero_pad 2 (dt_minute t) ++ ":" ++ zero_pad 2 (dt_second t)
  ++ (if Nat.eqb (dt_microsecond t) 0 then ""
      else "." ++ zero_pad 6 (dt_microsecond t)).

(** [repr(t)]: trailing zero seconds and microseconds are left out. *)
Definition datetime_repr (t : datetime) : string :=
  let front := [dt_year t; dt_month t; dt_day t; dt_hour t; dt_minute t] in
  let back :=
    if Nat.eqb (dt_microsecond t) 0
    then (if Nat.eqb (dt_second t) 0 then [] else [dt_second t])
    else [dt_second t; dt_microsecond t] in
  "datetime.datetime(" ++ join ", " (map nat_to_string (front ++ back)%list) ++ ")".

(** [repr(v)]. *)
Fixpoint py_repr (v : pyval) : string :=
  match v with
  | PNone => "None"
  | PBool true => "True"
  | PBool false => "False"
  | PInt z => Z_to_string z
  | PStr s => repr_str s
  | PList l => "[" ++ join ", " (map py_repr l) ++ "]"
  | PTuple l =>
      match l with
      | [x] => "(" ++ py_repr x ++ ",)"
      | _ => "(" ++ join ", " (map py_repr l) ++ ")"
      end
  | PDict d =>
      "{" ++ join ", " (map (fun kv => repr_str (fst kv) ++ ": " ++ py_repr (snd kv)) d)
      ++ "}"
  | PDatetime t => datetime_repr t
  end.

(** [str(v)], which is also what an f-string field [{v}] renders. *)
Definition py_str (v : pyval) : string :=
  match v with
  | PStr s => s
  | PDatetime t => datetime_str t
  | _ => py_repr v
  end.

(** [t.strftime(fmt)] for the directives the script uses ([%Y] for a year
    of four digits); any other directive is kept as it is written. *)
Definition strftime_directive (t : datetime) (d : ascii) : string :=
  if Ascii.eqb d "Y" then zero_pad 4 (dt_year t)
  else if Ascii.eqb d "m" then zero_pad 2 (dt_month t)
  else if Ascii.eqb d "d" then zero_pad 2 (dt_day t)
  else if Ascii.eqb d "H" then zero_pad 2 (dt_hour t)
  else if Ascii.eqb d "M" then zero_pad 2 (dt_minute t)
  else if Ascii.eqb d "S" then zero_pad 2 (dt_second t)
  else if Ascii.eqb d "%" then "%"
  else String "%" (String d "").

Fixpoint strftime (t : datetime) (fmt : string) : string :=
  match fmt with
  | EmptyString => EmptyString
  | String c rest =>
      if Ascii.eqb c "%"
      then match rest with
           | EmptyString => "%"
           | String d rest' => strftime_directive t d ++ strftime t rest'
           end
      else String c (strftime t rest)
  end.

(** ** The collaborators *)

(** What the script obtains from outside, as functions of the request.
    - [datetime_now]: the clock, read once by [datetime.now()];
    - [performance_log url]: a fresh browser session is created, navigates
      to [url] and returns its performance log;
    - [execute_cdp_cmd url rid]: [Network.getResponseBody] for request
      [rid] in the session that loaded [url];
    - [json_loads]: the JSON decoder;
    - [requests_get_url u]: the final URL of [requests.get(u)], after
      redirects.
    Each of them may raise. *)
Record World : Type := mkWorld {
  datetime_now : datetime;
  performance_log : string -> result (list pyval);
  execute_cdp_cmd : string -> pyval -> result pyval;
  json_loads : string -> result pyval;
  requests_get_url : string -> result string
}.

(** [json.loads(v)]: the argument must be a string. *)
Definition py_json_loads (w : World) (v : pyval) : result pyval :=
  match v with
  | PStr s => json_loads w s
  | _ => Raise TypeError
  end.

(** ** Tables *)

(** A [pandas.DataFrame] as far as the script uses one: the column
    labels, the index labels and the rows in order.  A row binds a column
    to a value or leaves it out (a missing cell). *)
Record DataFrame : Type := mkDataFrame {
  df_columns : list string;
  df_index : list nat;
  df_rows : list pydict
}.

Definition mem_string (k : string) (l : list string) : bool :=
  existsb (String.eqb k) l.

(** The labels of [ks] are added to [acc] in order of first appearance. *)
Fixpoint union_keys (acc ks : list string) : list string :=
  match ks with
  | [] => acc
  | k :: ks' =>
      if mem_string k acc then union_keys acc ks'
      else union_keys (acc ++ [k])%list ks'
  end.

(** The labels of all of [xs], in order of first appearance. *)
Definition fold_union {A : Type} (labels : A -> list string) (xs : list A)
    (acc : list string) : list string :=
  fold_left (fun acc x => union_keys acc (labels x)) xs acc.

(** [pd.DataFrame(records)] for a list of dicts. *)
Definition DataFrame_of_records (records : list pydict) : DataFrame :=
  mkDataFrame
    (fold_union dict_keys records [])
    (seq 0 (List.length records))
    records.

(** [pd.concat(frames)]: an empty list is refused. *)
Definition pd_concat (frames : list DataFrame) : result DataFrame :=
  match frames with
  | [] => Raise ValueError
  | _ =>
      Ok (mkDataFrame
            (fold_union df_columns frames [])
            (List.concat (map df_index frames))
            (List.concat (map df_rows frames)))
  end.

(** [df.reset_index(drop=True)]. *)
Definition reset_index (df : DataFrame) : DataFrame :=
  mkDataFrame (df_columns df) (seq 0 (List.length (df_rows df))) (df_rows df).

(** ** The private functions *)

(** [_process_browser_log_entry]. *)
Definition _process_browser_log_entry (w : World) (entry : pyval) : result pyval :=
  message <- py_getitem entry "message" ;;
  decoded <- py_json_loads w message ;;
  py_getitem decoded "message".

(** [_get_first_element]: the value returned for a list is built from
    [key[0]], the first character of the key. *)
Definition _get_first_element (origin_dict_ : pyval) (key : string) : result string :=
  found_key <- py_get origin_dict_ key ;;
  if isinstance_list found_key
  then match key with
       | EmptyString => Raise IndexError
       | String c _ => Ok (String c EmptyString)
       end
  else Ok "".

(** The ten assignments under [if meta:], in the order of the source. *)
Definition meta_fields : list (string * string) :=
  [ ("comunicacion_type", "comunicacion");
    ("product_description", "descripcion");
    ("sale_price", "precio_promocion_");
    ("price", "precio_referente");
    ("price_type", "tipo_de_precio_referente");
    ("brand", "marca");
    ("outstanding", "producto_destacado");
    ("sap_ean_code", "sap-ean");
    ("region", "region");
    ("measure", "unidad_de_medida") ].

Fixpoint set_meta_fields (meta : pyval) (fields : list (string * string))
    (product_scraped : pydict) : result pydict :=
  match fields with
  | [] => Ok product_scraped
  | (field, key) :: fields' =>
      value <- _get_first_element meta key ;;
      set_meta_fields meta fields' (dict_set product_scraped field (PStr value))
  end.

(** The nine assignments copied from the raw record. *)
Definition direct_fields : list (string * string) :=
  [ ("id", "ID");
    ("image_url", "image");
    ("post_type", "post_type");
    ("post_date", "post_date");
    ("post_modified", "post_modified");
    ("post_status", "post_status");
    ("post_name", "post_name");
    ("product_name", "post_name");
    ("post_title", "post_title") ].

Fixpoint set_direct_fields (product_info : pyval) (fields : list (string * string))
    (product_scraped : pydict) : result pydict :=
  match fields with
  | [] => Ok product_scraped
  | (field, key) :: fields' =>
      value <- py_get product_info key ;;
      set_direct_fields product_info fields' (dict_set product_scraped field value)
  end.

Definition site_base : string := "https://aratiendas.com/".

(** The string inside the category: three replacements in a row on the
    resolved URL. *)
Definition category_text (product_request product_type product_name : string) : string :=
  str_replace
    (str_replace (str_replace product_request site_base "")
                 (product_type ++ "/") "")
    ("/" ++ product_name ++ "/") "".

(** [_get_product_info]. *)
Definition _get_product_info (w : World) (product_info : pyval) : result pydict :=
  product_scraped <- set_direct_fields product_info direct_fields [] ;;
  meta <- py_get product_info "meta" ;;
  product_scraped <-
    (if truthy meta then set_meta_fields meta meta_fields product_scraped
     else Ok product_scraped) ;;
  product_name <- py_get (PDict product_scraped) "product_name" ;;
  product_type <- py_get (PDict product_scraped) "post_type" ;;
  let product_url :=
    site_base ++ py_str product_type ++ "/" ++ py_str product_name ++ "/" in
  resolved <- requests_get_url w product_url ;;
  let product_request := str_replace resolved "%" "" in
  let category :=
    PTuple [PStr (category_text product_request (py_str product_type)
                                (py_str product_name))] in
  let product_scraped := dict_set product_scraped "product_url" (PStr product_url) in
  let product_scraped := dict_set product_scraped "category" category in
  Ok product_scraped.

(** ** [webscraping_ara] *)

(** A region is [None] (the national search) or a name. *)
Definition region : Type := option string.

Definition REGIONS : list region :=
  [None; Some "norte"; Some "sur"; Some "oriente"; Some "occidente"; Some "centro"].

Definition region_value (r : region) : pyval :=
  match r with
  | None => PNone
  | Some name => PStr name
  end.

Definition region_url (r : region) : string :=
  match r with
  | None => "https://aratiendas.com/rebajon/"
  | Some name => "https://aratiendas.com/rebajon/" ++ name ++ "/"
  end.

(** The locals of [webscraping_ara] that live across the iterations of the
    loop over the regions: [first_event] is unbound ([None]) until the
    first assignment and is never reset; [products_dataframe_list] grows
    by one table for every region that is not skipped. *)
Record loop_state : Type := mkState {
  first_event : option nat;
  products_dataframe_list : list DataFrame
}.

Definition mentions_admin (event : pyval) : bool :=
  negb (Z.eqb (str_find (py_str event) "admin") (-1)).

(** The loop over [enumerate(events)]: the first event that mentions
    "admin" assigns [first_event] and breaks; without one the variable is
    left as it was. *)
Fixpoint admin_loop (number_event : nat) (events : list pyval)
    (first_event : option nat) : option nat :=
  match events with
  | [] => first_event
  | event :: events' =>
      if mentions_admin event then Some number_event
      else admin_loop (S number_event) events' first_event
  end.

(** Reading a local variable. *)
Definition read_local (x : option nat) : result nat :=
  match x with
  | Some n => Ok n
  | None => Raise UnboundLocalError
  end.

(** From the URL to the response body: the body of the loop down to
    [.get("body")].  The result is the value of [first_event] afterwards
    and the body. *)
Definition fetch_products (w : World) (fe : option nat) (r : region)
    : result (option nat * pyval) :=
  let url := region_url r in
  browser_log <- performance_log w url ;;
  events <- mapM (_process_browser_log_entry w) browser_log ;;
  let fe' := admin_loop 0 events fe in
  i <- read_local fe' ;;
  event <- list_getitem events i ;;
  params <- py_getitem event "params" ;;
  request_id <- py_getitem params "requestId" ;;
  response <- execute_cdp_cmd w url request_id ;;
  products <- py_get response "body" ;;
  Ok (fe', products).

(** One product of a region: the normalized record and the four
    extraction fields. *)
Definition product_row (w : World) (now : datetime) (r : region) (product : pyval)
    : result pydict :=
  product_info <- _get_product_info w product ;;
  let product_info := dict_set product_info "extracted_region" (region_value r) in
  let product_info := dict_set product_info "extracted_datetime" (PDatetime now) in
  let product_info :=
    dict_set product_info "extracted_date" (PStr (strftime now "%Y%m%d")) in
  let product_info :=
    dict_set product_info "extracted_time" (PStr (strftime now "%H:%M:%S")) in
  Ok product_info.

(** The payload decoder: [json.loads(products).get("data")]. *)
Definition decode_payload (w : World) (products : pyval) : result pyval :=
  json_products <- py_json_loads w products ;;
  py_get json_products "data".

(** From the body to the rows of the region: the payload is decoded, its
    length is printed and its products are processed in order. *)
Definition region_rows (w : World) (now : datetime) (r : region) (products : pyval)
    : result (list pydict) :=
  list_products <- decode_payload w products ;;
  _ <- py_len list_products ;;
  items <- py_iter list_products ;;
  mapM (product_row w now r) items.

(** The body of the loop over the regions. *)
Definition region_body (w : World) (now : datetime) (st : loop_state) (r : region)
    : result loop_state :=
  ' (fe', products) <- fetch_products w (first_event st) r ;;
  if negb (truthy products)
  then Ok (mkState fe' (products_dataframe_list st))
  else
    list_products_info <- region_rows w now r products ;;
    Ok (mkState fe'
          (products_dataframe_list st ++ [DataFrame_of_records list_products_info])%list).

Fixpoint regions_loop (w : World) (now : datetime) (st : loop_state)
    (regions : list region) : result loop_state :=
  match regions with
  | [] => Ok st
  | r :: regions' =>
      st' <- region_body w now st r ;;
      regions_loop w now st' regions'
  end.

Definition webscraping_ara (w : World) (regions : list region) : result DataFrame :=
  let now := datetime_now w in
  st <- regions_loop w now (mkState None []) regions ;;
  products_dataframe <- pd_concat (products_dataframe_list st) ;;
  Ok (reset_index products_dataframe).

(** The 25 keys a normalized row can have, in the order the source
    assigns them. *)
Definition output_fields : list string :=
  (map fst direct_fields ++ map fst meta_fields
   ++ ["product_url"; "category"]
   ++ ["extracted_region"; "extracted_datetime"; "extracted_date"; "extracted_time"])%list.

(** The text a category value carries, bare or inside a tuple of one
    element. *)
Definition carried_text (v : pyval) : option string :=
  match v with
  | PStr s => Some s
  | PTuple [PStr s] => Some s
  | _ => None
  end.

(** A value that is one item and not a container. *)
Definition is_scalar (v : pyval) : bool :=
  match v with
  | PList _ | PTuple _ | PDict _ => false
  | _ => true
  end.

(** ** What a run scraped

    [scraped w now fe regions groups]: starting with [first_event] equal
    to [fe], the loop over [regions] meets no exception, and [groups]
    lists, for every region that is not skipped and in the order of the
    regions, the products of its payload in payload order, each with the
    row made from it. *)
Definition group : Type := (region * list (pyval * pydict))%type.

Definition group_rows (g : group) : list pydict := map snd (snd g).

(** The table of a region that is not skipped. *)
Definition group_table (g : group) : DataFrame :=
  DataFrame_of_records (group_rows g).

(** Some scraped product has a "meta" value that is true. *)
Definition some_meta (groups : list group) : Prop :=
  exists g pr meta,
    In g groups /\ In pr (snd g) /\
    py_get (fst pr) "meta" = Ok meta /\ truthy meta = true.

(** The four extraction fields of a row scraped under region [r] at
    [now]. *)
Definition tagged (now : datetime) (r : region) (row : pydict) : Prop :=
  dict_lookup row "extracted_region" = Some (region_value r) /\
  dict_lookup row "extracted_datetime" = Some (PDatetime now) /\
  dict_lookup row "extracted_date" = Some (PStr (strftime now "%Y%m%d")) /\
  dict_lookup row "extracted_time" = Some (PStr (strftime now "%H:%M:%S")).

Inductive scraped (w : World) (now : datetime)
    : option nat -> list region -> list group -> Prop :=
| scraped_done : forall fe, scraped w now fe [] []
| scraped_skip : forall fe r fe' body regions groups,
    fetch_products w fe r = Ok (fe', body) ->
    truthy body = false ->
    scraped w now fe' regions groups ->
    scraped w now fe (r :: regions) groups
| scraped_table : forall fe r fe' body list_products n items pairs regions groups,
    fetch_products w fe r = Ok (fe', body) ->
    truthy body = true ->
    decode_payload w body = Ok list_products ->
    py_len list_products = Ok n ->
    py_iter list_products = Ok items ->
    map fst pairs = items ->
    Forall (fun pr => product_row w now r (fst pr) = Ok (snd pr)) pairs ->
    scraped w now fe' regions groups ->
    scraped w now fe (r :: regions) ((r, pairs) :: groups).

(** ** Vocabulary of the further properties *)

(** [key[0]] as a string, for a key that is not empty. *)
Definition key_initial (key : string) : string :=
  match key with
  | EmptyString => EmptyString
  | String c _ => String c EmptyString
  end.

(** The key is bound to a list, whatever the list holds. *)
Definition bound_to_list (d : pydict) (key : string) : bool :=
  match dict_lookup d key with
  | Some v => isinstance_list v
  | None => false
  end.

(** [d.get(key)] as a value: [None] for a missing key. *)
Definition get_or_none (d : pydict) (key : string) : pyval :=
  match dict_lookup d key with
  | Some v => v
  | None => PNone
  end.

(** The fields of a row made from a product without a true "meta". *)
Definition plain_fields : list string :=
  (map fst direct_fields ++ ["product_url"; "category"]
   ++ ["extracted_region"; "extracted_datetime"; "extracted_date"; "extracted_time"])%list.

(** A timestamp [datetime.now()] can return: a year of four digits and
    fields within their calendar and clock ranges. *)
Definition valid_datetime (t : datetime) : Prop :=
  10 * 10 * 10 <= dt_year t < 10 * 10 * 10 * 10 /\
  1 <= dt_month t <= 12 /\ 1 <= dt_day t <= 31 /\
  dt_hour t <= 23 /\ dt_minute t <= 59 /\ dt_second t <= 59.

(** ** A sample world

    A small catalog used to run the definitions: the national page and the
    pages of four regions. *)
Module Sample.

(** JSON text written with single quotes for readability; [json_text]
    puts the double quotes back. *)
Fixpoint json_text (s : string) : string :=
  match s with
  | EmptyString => EmptyString
  | String c s' =>
      String (if Ascii.eqb c "'" then "034"%char else c) (json_text s')
  end.

Definition now : datetime := mkDatetime 2026 11 3 9 5 7 0.

(** Log messages and their decoded form. *)
Definition page_text : string :=
  json_text "{'message': {'method': 'Page.loadEventFired', 'params': {'timestamp': 1}}}".
Definition page_event : pyval :=
  PDict [("method", PStr "Page.loadEventFired");
         ("params", PDict [("timestamp", PInt 1)])].

Definition catalog_text (rid : string) : string :=
  json_text ("{'message': {'method': 'Network.responseReceived', 'params': {'requestId': '"
             ++ rid ++ "', 'url': 'https://aratiendas.com/wp-admin/admin-ajax.php'}}}").
Definition catalog_event (rid : string) : pyval :=
  PDict [("method", PStr "Network.responseReceived");
         ("params", PDict [("requestId", PStr rid);
                           ("url", PStr "https://aratiendas.com/wp-admin/admin-ajax.php")])].

Definition feed_text : string :=
  json_text "{'message': {'method': 'Network.responseReceived', 'params': {'requestId': '3000.9', 'url': 'https://aratiendas.com/wp-json/rebajon/sur'}}}".
Definition feed_event : pyval :=
  PDict [("method", PStr "Network.responseReceived");
         ("params", PDict [("requestId", PStr "3000.9");
                           ("url", PStr "https://aratiendas.com/wp-json/rebajon/sur")])].

Definition log_entry (message : string) : pyval :=
  PDict [("level", PStr "INFO"); ("message", PStr message); ("timestamp", PInt 1)].

(** Raw product records. *)
Definition milk : pyval :=
  PDict [("ID", PInt 101);
         ("image", PStr "https://aratiendas.com/img/leche.png");
         ("post_type", PStr "producto");
         ("post_date", PStr "2026-10-01 08:00:00");
         ("post_modified", PStr "2026-10-02 08:00:00");
         ("post_status", PStr "publish");
         ("post_name", PStr "leche-entera");
         ("post_title", PStr "Leche Entera");
         ("meta", PDict [("marca", PList [PStr "AcmeCo"]);
                         ("precio_referente", PList [PStr "3500"])])].

Definition rice : pyval :=
  PDict [("ID", PInt 102);
         ("post_type", PStr "producto");
         ("post_name", PStr "arroz");
         ("post_title", PStr "Arroz")].

Definition soap : pyval :=
  PDict [("ID", PInt 103);
         ("post_type", PStr "producto");
         ("post_name", PStr "jabon");
         ("post_title", PStr "Jabon")].

Definition national_body : string :=
  json_text "{'data': [{'ID': 101, 'image': 'https://aratiendas.com/img/leche.png', 'post_type': 'producto', 'post_date': '2026-10-01 08:00:00', 'post_modified': '2026-10-02 08:00:00', 'post_status': 'publish', 'post_name': 'leche-entera', 'post_title': 'Leche Entera', 'meta': {'marca': ['AcmeCo'], 'precio_referente': ['3500']}}, {'ID': 102, 'post_type': 'producto', 'post_name': 'arroz', 'post_title': 'Arroz'}]}".

Definition sur_body : string :=
  json_text "{'data': [{'ID': 103, 'post_type': 'producto', 'post_name': 'jabon', 'post_title': 'Jabon'}]}".

Definition oriente_body : string := json_text "{'status': 'ok'}".

Definition candle : pyval :=
  PDict [("ID", PInt 104);
         ("post_type", PStr "producto");
         ("post_name", PStr "vela");
         ("meta", PDict [])].

Definition occidente_body : string :=
  json_text "{'data': [{'ID': 104, 'post_type': 'producto', 'post_name': 'vela', 'meta': {}}]}".

(** The national page and [norte] have a catalog exchange in their log,
    [norte] with an empty body; the log of [sur] has no exchange that
    mentions "admin"; the payload of [oriente] has no "data"; the only
    product of [occidente] has an empty "meta" map; the browser does not
    start for any other page. *)
Definition sample_log (url : string) : result (list pyval) :=
  if String.eqb url "https://aratiendas.com/rebajon/"
  then Ok [log_entry page_text; log_entry (catalog_text "1000.2")]
  else if String.eqb url "https://aratiendas.com/rebajon/norte/"
  then Ok [log_entry (catalog_text "2000.1")]
  else if String.eqb url "https://aratiendas.com/rebajon/sur/"
  then Ok [log_entry page_text; log_entry feed_text]
  else if String.eqb url "https://aratiendas.com/rebajon/oriente/"
  then Ok [log_entry (catalog_text "4000.1")]
  else if String.eqb url "https://aratiendas.com/rebajon/occidente/"
  then Ok [log_entry (catalog_text "5000.1")]
  else Raise WebDriverException.

Definition response (body : string) : pyval :=
  PDict [("body", PStr body); ("base64Encoded", PBool false)].

Definition sample_cdp (url : string) (request_id : pyval) : result pyval :=
  match request_id with
  | PStr rid =>
      if String.eqb rid "1000.2" then Ok (response national_body)
      else if String.eqb rid "2000.1" then Ok (response "")
      else if String.eqb rid "3000.9" then Ok (response sur_body)
      else if String.eqb rid "4000.1" then Ok (response oriente_body)
      else if String.eqb rid "5000.1" then Ok (response occidente_body)
      else Raise WebDriverException
  | _ => Raise WebDriverException
  end.

Definition sample_json (text : string) : result pyval :=
  if String.eqb text page_text then Ok (PDict [("message", page_event)])
  else if String.eqb text (catalog_text "1000.2")
  then Ok (PDict [("message", catalog_event "1000.2")])
  else if String.eqb text (catalog_text "2000.1")
  then Ok (PDict [("message", catalog_event "2000.1")])
  else if String.eqb text (catalog_text "4000.1")
  then Ok (PDict [("message", catalog_event "4000.1")])
  else if String.eqb text (catalog_text "5000.1")
  then Ok (PDict [("message", catalog_event "5000.1")])
  else if String.eqb text feed_text then Ok (PDict [("message", feed_event)])
  else if String.eqb text national_body then Ok (PDict [("data", PList [milk; rice])])
  else if String.eqb text sur_body then Ok (PDict [("data", PList [soap])])
  else if String.eqb text oriente_body then Ok (PDict [("status", PStr "ok")])
  else if String.eqb text occidente_body then Ok (PDict [("data", PList [candle])])
  else Raise JSONDecodeError.

(** The product page of the milk redirects to the URL of the category
    example, the one of the rice to a URL with the category in the
    middle; any other URL is answered without a redirect. *)
Definition sample_http (url : string) : result string :=
  if String.eqb url "https://aratiendas.com/producto/leche-entera/"
  then Ok "https://aratiendas.com/producto/leche-entera/lacteos/"
  else if String.eqb url "https://aratiendas.com/producto/arroz/"
  then Ok "https://aratiendas.com/producto/despensa/arroz/"
  else Ok url.

Definition shop : World :=
  mkWorld now sample_log sample_cdp sample_json sample_http.

Definition table_of (run : result DataFrame) : DataFrame :=
  match run with
  | Ok df => df
  | Raise _ => mkDataFrame [] [] []
  end.

(** The table of the national page followed by [norte]: the two
    national products. *)
Definition national_norte : DataFrame :=
  Eval vm_compute in table_of (webscraping_ara shop [None; Some "norte"]).

(** The record of the first-element example: only a "meta" map. *)
Definition acme : pyval :=
  PDict [("meta", PDict [("marca", PList [PStr "AcmeCo"])])].

(** A product whose brand list is empty and whose price is not a list. *)
Definition flour_fields : pydict :=
  [("ID", PInt 105);
   ("post_type", PStr "producto");
   ("post_name", PStr "harina");
   ("meta", PDict [("marca", PList []); ("precio_referente", PStr "2100")])].

Definition record_of (run : result pydict) : pydict :=
  match run with
  | Ok rec => rec
  | Raise _ => []
  end.

Definition flour_record : pydict :=
  Eval vm_compute in record_of (_get_product_info shop (PDict flour_fields)).

(** A world whose every page logs the catalog exchange and then an entry
    without a "message". *)
Definition noisy : World :=
  mkWorld now
    (fun _ => Ok [log_entry (catalog_text "1000.2"); PDict [("level", PStr "INFO")]])
    sample_cdp sample_json sample_http.

(** A world whose every page has the catalog exchange and a payload with
    an empty list of products. *)
Definition empty_body : string := json_text "{'data': []}".

Definition bare : World :=
  mkWorld now
    (fun _ => Ok [log_entry (catalog_text "1000.2")])
    (fun _ _ => Ok (response empty_body))
    (fun text =>
       if String.eqb text empty_body then Ok (PDict [("data", PList [])])
       else sample_json text)
    sample_http.

Definition flour_row : pydict :=
  Eval vm_compute in record_of (product_row shop now (Some "sur") (PDict flour_fields)).

End Sample.

(** * Properties *)

(** ** The result monad *)

Lemma bind_Ok_inv {A B : Type} (m : result A) (f : A -> result B) (b : B) :
  bind m f = Ok b -> exists a, m = Ok a /\ f a = Ok b.
Proof.
  destruct m as [a | e]; simpl; intros H.
  - exists a. split; [reflexivity | exact H].
  - discriminate H.
Qed.

(** Splits a hypothesis [bind m f = Ok b] into its two steps. *)
Ltac bind_inv H :=
  let a := fresh "a" in
  let Ha := fresh "Ha" in
  apply bind_Ok_inv in H; destruct H as [a [Ha H]].

Lemma mapM_pairs {A B : Type} (f : A -> result B) (l : list A) (bs : list B) :
  mapM f l = Ok bs ->
  exists pairs : list (A * B),
    map fst pairs = l /\ map snd pairs = bs /\
    Forall (fun pr => f (fst pr) = Ok (snd pr)) pairs.
Proof.
  revert bs. induction l as [| a l IH]; simpl; intros bs H.
  - inversion H; subst. exists []. repeat split; constructor.
  - bind_inv H. bind_inv H. inversion H; subst; clear H.
    destruct (IH _ Ha0) as [pairs [Hf [Hs Hall]]].
    exists ((a, a0) :: pairs). simpl. rewrite Hf, Hs.
    repeat split. constructor; [exact Ha | exact Hall].
Qed.

Lemma pairs_mapM {A B : Type} (f : A -> result B) (pairs : list (A * B)) :
  Forall (fun pr => f (fst pr) = Ok (snd pr)) pairs ->
  mapM f (map fst pairs) = Ok (map snd pairs).
Proof.
  induction 1 as [| pr pairs Hpr _ IH]; simpl.
  - reflexivity.
  - rewrite Hpr. simpl. rewrite IH. reflexivity.
Qed.

(** ** Appending strings *)


Lemma append_empty_r (a : string) : a ++ "" = a.
Proof.
  induction a as [| x a IH]; simpl; [reflexivity | rewrite IH; reflexivity].
Qed.

(** ** Dictionaries *)

Lemma dict_lookup_set_same (d : pydict) (k : string) (v : pyval) :
  dict_lookup (dict_set d k v) k = Some v.
Proof.
  induction d as [| [k' v'] d IH]; simpl.
  - rewrite String.eqb_refl. reflexivity.
  - destruct (String.eqb k' k) eqn:E; simpl; rewrite E; [reflexivity | exact IH].
Qed.

Lemma dict_lookup_set_other (d : pydict) (k k' : string) (v : pyval) :
  k <> k' -> dict_lookup (dict_set d k v) k' = dict_lookup d k'.
Proof.
  intros Hne. induction d as [| [k0 v0] d IH]; simpl.
  - destruct (String.eqb k k') eqn:E; [| reflexivity].
    apply String.eqb_eq in E. contradiction.
  - destruct (String.eqb k0 k) eqn:E; simpl.
    + apply String.eqb_eq in E. subst k0.
      destruct (String.eqb k k') eqn:E'; [| reflexivity].
      apply String.eqb_eq in E'. contradiction.
    + destruct (String.eqb k0 k'); [reflexivity | exact IH].
Qed.

Lemma mem_string_In (k : string) (l : list string) :
  mem_string k l = true <-> In k l.
Proof.
  unfold mem_string. rewrite existsb_exists. split.
  - intros [x [Hin Heq]]. apply String.eqb_eq in Heq. subst. exact Hin.
  - intros Hin. exists k. split; [exact Hin | apply String.eqb_refl].
Qed.

Lemma dict_keys_set_In (d : pydict) (k : string) (v : pyval) (x : string) :
  In x (dict_keys (dict_set d k v)) <-> In x (dict_keys d) \/ x = k.
Proof.
  unfold dict_keys. induction d as [| [k' v'] d IH]; simpl.
  - intuition.
  - destruct (String.eqb k' k) eqn:E; simpl.
    + apply String.eqb_eq in E. subst k'. intuition.
    + rewrite IH. intuition.
Qed.

Lemma dict_lookup_None_keys (d : pydict) (k : string) :
  dict_lookup d k = None <-> ~ In k (dict_keys d).
Proof.
  unfold dict_keys. induction d as [| [k' v'] d IH]; simpl.
  - intuition.
  - destruct (String.eqb k' k) eqn:E.
    + apply String.eqb_eq in E. subst. split; [discriminate | intuition].
    + apply String.eqb_neq in E. rewrite IH. intuition.
Qed.

(** ** The record normalizer *)

Lemma set_direct_fields_keys (p : pyval) (fields : list (string * string))
    (acc rec : pydict) :
  set_direct_fields p fields acc = Ok rec ->
  forall k, In k (dict_keys rec) <-> In k (dict_keys acc) \/ In k (map fst fields).
Proof.
  revert acc. induction fields as [| [field key] fields IH]; simpl; intros acc H k.
  - inversion H; subst. intuition.
  - bind_inv H. rewrite (IH _ H k), dict_keys_set_In. intuition.
Qed.

Lemma set_direct_fields_total (d : pydict) (fields : list (string * string))
    (acc : pydict) :
  exists rec, set_direct_fields (PDict d) fields acc = Ok rec.
Proof.
  revert acc. induction fields as [| [field key] fields IH]; simpl; intros acc.
  - exists acc. reflexivity.
  - destruct (dict_lookup d key); simpl; apply IH.
Qed.

Lemma set_meta_fields_keys (meta : pyval) (fields : list (string * string))
    (acc rec : pydict) :
  set_meta_fields meta fields acc = Ok rec ->
  forall k, In k (dict_keys rec) <-> In k (dict_keys acc) \/ In k (map fst fields).
Proof.
  revert acc. induction fields as [| [field key] fields IH]; simpl; intros acc H k.
  - inversion H; subst. intuition.
  - bind_inv H. rewrite (IH _ H k), dict_keys_set_In. intuition.
Qed.

(** The keys of a normalized record: the nine copied fields, the ten meta
    fields when the record has a "meta" value that is true, and the two
    derived fields. *)
Lemma get_product_info_keys (w : World) (p : pyval) (rec : pydict) :
  _get_product_info w p = Ok rec ->
  exists meta,
    py_get p "meta" = Ok meta /\
    forall k, In k (dict_keys rec) <->
              In k (map fst direct_fields)
              \/ (truthy meta = true /\ In k (map fst meta_fields))
              \/ k = "product_url" \/ k = "category".
Proof.
  unfold _get_product_info. intros H.
  bind_inv H. bind_inv H. bind_inv H. bind_inv H. bind_inv H. bind_inv H.
  inversion H; subst; clear H.
  exists a0. split; [exact Ha0 |]. intros k.
  rewrite !dict_keys_set_In.
  pose proof (set_direct_fields_keys _ _ _ _ Ha k) as Hd. simpl dict_keys in Hd.
  destruct (truthy a0) eqn:Et.
  - pose proof (set_meta_fields_keys _ _ _ _ Ha1 k) as Hm.
    rewrite Hm, Hd. simpl In at 1. intuition.
  - inversion Ha1; subst. rewrite Hd. simpl In at 1. intuition discriminate.
Qed.

(** A row of the table has the keys of the normalized record and the four
    extraction fields. *)
Lemma product_row_keys (w : World) (now : datetime) (r : region) (p : pyval)
    (row : pydict) :
  product_row w now r p = Ok row ->
  exists rec,
    _get_product_info w p = Ok rec /\
    forall k, In k (dict_keys row) <->
              In k (dict_keys rec)
              \/ In k ["extracted_region"; "extracted_datetime";
                       "extracted_date"; "extracted_time"].
Proof.
  unfold product_row. intros H. bind_inv H. inversion H; subst; clear H.
  exists a. split; [exact Ha |]. intros k.
  rewrite !dict_keys_set_In. simpl. intuition.
Qed.

(** The four extraction fields of a row. *)
Lemma product_row_tags (w : World) (now : datetime) (r : region) (p : pyval)
    (row : pydict) :
  product_row w now r p = Ok row -> tagged now r row.
Proof.
  unfold product_row, tagged. intros H. bind_inv H. inversion H; subst; clear H.
  repeat split.
  - rewrite !dict_lookup_set_other by discriminate. apply dict_lookup_set_same.
  - rewrite !dict_lookup_set_other by discriminate. apply dict_lookup_set_same.
  - rewrite !dict_lookup_set_other by discriminate. apply dict_lookup_set_same.
  - apply dict_lookup_set_same.
Qed.

(** The two formats of the script, field by field. *)
Lemma strftime_date_time (t : datetime) :
  strftime t "%Y%m%d"
  = zero_pad 4 (dt_year t) ++ zero_pad 2 (dt_month t) ++ zero_pad 2 (dt_day t) /\
  strftime t "%H:%M:%S"
  = zero_pad 2 (dt_hour t) ++ ":" ++ zero_pad 2 (dt_minute t) ++ ":"
    ++ zero_pad 2 (dt_second t).
Proof.
  split; cbn; rewrite append_empty_r; reflexivity.
Qed.

(** [_get_first_element] on a key bound to a list: the first character of
    the key, whatever the list holds. *)
Lemma get_first_element_of_list (d : pydict) (c : ascii) (rest : string)
    (l : list pyval) :
  dict_lookup d (String c rest) = Some (PList l) ->
  _get_first_element (PDict d) (String c rest) = Ok (String c EmptyString).
Proof.
  intros H. unfold _get_first_element, py_get. rewrite H. reflexivity.
Qed.

(** On a key that is missing or bound to anything but a list: the empty
    string. *)
Lemma get_first_element_default (d : pydict) (key : string) :
  match dict_lookup d key with
  | Some (PList _) => False
  | _ => True
  end ->
  _get_first_element (PDict d) key = Ok "".
Proof.
  unfold _get_first_element, py_get.
  destruct (dict_lookup d key) as [[| | | | | | |] |]; simpl; intros H;
    solve [reflexivity | contradiction].
Qed.

(** C1 (defect in the code).  For the record whose "meta" map is
    [{"marca": ["AcmeCo"]}] the normalizer returns a record whose brand is
    "m", the first character of the key "marca", and not "AcmeCo", the
    first element of the list. *)
Theorem C1_brand_is_initial_of_key :
  exists rec,
    _get_product_info Sample.shop Sample.acme = Ok rec /\
    dict_lookup rec "brand" = Some (PStr "m") /\
    dict_lookup rec "brand" <> Some (PStr "AcmeCo").
Proof.
  eexists. split; [vm_compute; reflexivity |].
  split; [reflexivity | discriminate].
Qed.

(** C6.  A raw product record with no "meta" key is normalized, as soon
    as the HTTP client answers, into a record in which none of the ten
    meta fields is bound. *)
Theorem C6_no_meta_no_meta_fields (w : World) (d : pydict) :
  dict_lookup d "meta" = None ->
  (forall url, exists resolved, requests_get_url w url = Ok resolved) ->
  exists rec,
    _get_product_info w (PDict d) = Ok rec /\
    Forall (fun field => dict_lookup rec field = None)
           ["comunicacion_type"; "product_description"; "sale_price"; "price";
            "price_type"; "brand"; "outstanding"; "sap_ean_code"; "region";
            "measure"].
Proof.
  intros Hmeta Hhttp.
  assert (Hret : exists rec, _get_product_info w (PDict d) = Ok rec).
  { unfold _get_product_info.
    destruct (set_direct_fields_total d direct_fields []) as [rec0 H0].
    rewrite H0. cbn [bind]. unfold py_get. rewrite Hmeta. cbn [bind truthy].
    destruct (dict_lookup rec0 "product_name") as [name |];
      destruct (dict_lookup rec0 "post_type") as [type |]; cbn [bind];
      match goal with
      | |- context [requests_get_url w ?u] =>
          destruct (Hhttp u) as [resolved Hu]; rewrite Hu
      end; cbn [bind]; eexists; reflexivity. }
  destruct Hret as [rec Hrec]. exists rec. split; [exact Hrec |].
  destruct (get_product_info_keys _ _ _ Hrec) as [meta [Hget Hkeys]].
  unfold py_get in Hget. rewrite Hmeta in Hget. inversion Hget; subst meta.
  repeat constructor; apply dict_lookup_None_keys; rewrite Hkeys; simpl;
    intuition discriminate.
Qed.

Lemma C6_no_meta_no_meta_fields_witness :
  exists rec,
    _get_product_info Sample.shop Sample.rice = Ok rec /\
    Forall (fun field => dict_lookup rec field = None)
           ["comunicacion_type"; "product_description"; "sale_price"; "price";
            "price_type"; "brand"; "outstanding"; "sap_ean_code"; "region";
            "measure"].
Proof.
  apply (C6_no_meta_no_meta_fields Sample.shop).
  - reflexivity.
  - intros url. simpl. unfold Sample.sample_http.
    destruct (String.eqb url _); [eexists; reflexivity |].
    destruct (String.eqb url _); eexists; reflexivity.
Defined.

Lemma set_meta_fields_lookup (meta : pyval) (fields : list (string * string))
    (acc rec : pydict) (k : string) :
  set_meta_fields meta fields acc = Ok rec ->
  ~ In k (map fst fields) ->
  dict_lookup rec k = dict_lookup acc k.
Proof.
  revert acc. induction fields as [| [field key] fields IH]; simpl; intros acc H Hk.
  - inversion H; subst. reflexivity.
  - bind_inv H. rewrite (IH _ H) by tauto.
    apply dict_lookup_set_other. intros E. apply Hk. left. exact E.
Qed.

(** The type and the name the URL is built from are the "post_type" and
    the "post_name" of the raw record. *)
Lemma direct_fields_type_name (p : pyval) (rec0 : pydict) :
  set_direct_fields p direct_fields [] = Ok rec0 ->
  exists product_type product_name,
    py_get p "post_type" = Ok product_type /\
    py_get p "post_name" = Ok product_name /\
    dict_lookup rec0 "post_type" = Some product_type /\
    dict_lookup rec0 "product_name" = Some product_name.
Proof.
  unfold direct_fields. cbn [set_direct_fields]. intros H.
  do 9 (bind_inv H). inversion H; subst; clear H.
  exists a1, a6. repeat split; try assumption; reflexivity.
Qed.

(** C3, the claim as stated, on its own example: type "producto", name
    "leche-entera" and resolved URL
    [https://aratiendas.com/producto/leche-entera/lacteos/].  The category
    of the normalized record is not the string "lacteos/". *)
Lemma C3_category_counterexample :
  py_get Sample.milk "post_type" = Ok (PStr "producto") /\
  py_get Sample.milk "post_name" = Ok (PStr "leche-entera") /\
  requests_get_url Sample.shop "https://aratiendas.com/producto/leche-entera/"
    = Ok "https://aratiendas.com/producto/leche-entera/lacteos/" /\
  (exists rec,
      _get_product_info Sample.shop Sample.milk = Ok rec /\
      dict_lookup rec "category" = Some (PTuple [PStr "leche-entera/lacteos/"])) /\
  ~ (exists rec,
        _get_product_info Sample.shop Sample.milk = Ok rec /\
        dict_lookup rec "category" = Some (PStr "lacteos/")).
Proof.
  repeat split; try reflexivity.
  - eexists. split; [vm_compute; reflexivity | reflexivity].
  - intros [rec [Hrec Hcat]]. vm_compute in Hrec.
    inversion Hrec; subst rec. vm_compute in Hcat. discriminate Hcat.
Qed.

(** C3, amended.  Whenever the normalizer returns, the category it stores
    carries the text obtained from the resolved URL, with every "%"
    removed, by deleting in this order every occurrence of the site base,
    of the post type followed by "/", and of the product name between two
    "/".  For type "producto", name "leche-entera" and resolved URL
    [https://aratiendas.com/producto/leche-entera/lacteos/] that text is
    "leche-entera/lacteos/". *)
Theorem C3_category_is_residual_text (w : World) (p : pyval) (rec : pydict) :
  _get_product_info w p = Ok rec ->
  exists product_type product_name resolved category,
    py_get p "post_type" = Ok product_type /\
    py_get p "post_name" = Ok product_name /\
    requests_get_url w
      (site_base ++ py_str product_type ++ "/" ++ py_str product_name ++ "/")
      = Ok resolved /\
    dict_lookup rec "category" = Some category /\
    carried_text category
      = Some (str_replace
                (str_replace
                   (str_replace (str_replace resolved "%" "") site_base "")
                   (py_str product_type ++ "/") "")
                ("/" ++ py_str product_name ++ "/") "") /\
    (product_type = PStr "producto" ->
     product_name = PStr "leche-entera" ->
     resolved = "https://aratiendas.com/producto/leche-entera/lacteos/" ->
     carried_text category = Some "leche-entera/lacteos/").
Proof.
  unfold _get_product_info. intros H.
  bind_inv H. bind_inv H. bind_inv H. bind_inv H. bind_inv H. bind_inv H.
  inversion H; subst; clear H.
  destruct (direct_fields_type_name _ _ Ha) as [ty [nm [Hty [Hnm [Lty Lnm]]]]].
  assert (Lty' : dict_lookup a1 "post_type" = Some ty /\
                 dict_lookup a1 "product_name" = Some nm).
  { destruct (truthy a0).
    - split; [rewrite <- Lty | rewrite <- Lnm];
        apply (set_meta_fields_lookup _ _ _ _ _ Ha1); simpl;
        intuition discriminate.
    - inversion Ha1; subst. split; assumption. }
  destruct Lty' as [Lty' Lnm'].
  unfold py_get in Ha2, Ha3. rewrite Lnm' in Ha2. rewrite Lty' in Ha3.
  inversion Ha2; subst a2. inversion Ha3; subst a3.
  exists ty, nm, a4. eexists.
  split; [exact Hty |]. split; [exact Hnm |]. split; [exact Ha4 |].
  split; [apply dict_lookup_set_same |]. split; [reflexivity |].
  intros -> -> ->. reflexivity.
Qed.

Lemma C3_category_is_residual_text_witness :
  exists product_type product_name resolved category,
    py_get Sample.rice "post_type" = Ok product_type /\
    py_get Sample.rice "post_name" = Ok product_name /\
    requests_get_url Sample.shop
      (site_base ++ py_str product_type ++ "/" ++ py_str product_name ++ "/")
      = Ok resolved /\
    dict_lookup
      [("id", PInt 102); ("image_url", PNone);
       ("post_type", PStr "producto"); ("post_date", PNone);
       ("post_modified", PNone); ("post_status", PNone);
       ("post_name", PStr "arroz"); ("product_name", PStr "arroz");
       ("post_title", PStr "Arroz");
       ("product_url", PStr "https://aratiendas.com/producto/arroz/");
       ("category", PTuple [PStr "despensa"])] "category" = Some category /\
    carried_text category
      = Some (str_replace
                (str_replace
                   (str_replace (str_replace resolved "%" "") site_base "")
                   (py_str product_type ++ "/") "")
                ("/" ++ py_str product_name ++ "/") "") /\
    (product_type = PStr "producto" ->
     product_name = PStr "leche-entera" ->
     resolved = "https://aratiendas.com/producto/leche-entera/lacteos/" ->
     carried_text category = Some "leche-entera/lacteos/").
Proof.
  apply (C3_category_is_residual_text Sample.shop Sample.rice).
  vm_compute. reflexivity.
Defined.

(** ** String replacement *)










(** ** The loop over the regions *)

Lemma region_rows_inv (w : World) (now : datetime) (r : region) (body : pyval)
    (rows : list pydict) :
  region_rows w now r body = Ok rows ->
  exists list_products n items pairs,
    decode_payload w body = Ok list_products /\
    py_len list_products = Ok n /\
    py_iter list_products = Ok items /\
    map fst pairs = items /\ map snd pairs = rows /\
    Forall (fun pr => product_row w now r (fst pr) = Ok (snd pr)) pairs.
Proof.
  unfold region_rows. intros H. bind_inv H. bind_inv H. bind_inv H.
  destruct (mapM_pairs _ _ _ H) as [pairs [Hf [Hs Hall]]].
  exists a, a0, a1, pairs. repeat split; assumption.
Qed.

Lemma regions_loop_app (w : World) (now : datetime) (pre post : list region)
    (st : loop_state) :
  regions_loop w now st (pre ++ post)%list
  = bind (regions_loop w now st pre) (fun st' => regions_loop w now st' post).
Proof.
  revert st. induction pre as [| r pre IH]; intros st; simpl.
  - reflexivity.
  - destruct (region_body w now st r) as [st' | e]; simpl; [apply IH | reflexivity].
Qed.

(** A run of the loop that ends without an exception scraped some groups,
    and appended their tables in order. *)
Lemma regions_loop_scraped (w : World) (now : datetime) (regions : list region) :
  forall fe tabs st',
    regions_loop w now (mkState fe tabs) regions = Ok st' ->
    exists groups,
      scraped w now fe regions groups /\
      products_dataframe_list st' = (tabs ++ map group_table groups)%list.
Proof.
  induction regions as [| r regions IH]; intros fe tabs st' H.
  - simpl in H. inversion H; subst. exists []. split; [constructor |].
    simpl. rewrite app_nil_r. reflexivity.
  - cbn [regions_loop] in H. bind_inv H. unfold region_body in Ha.
    cbn [first_event products_dataframe_list] in Ha.
    bind_inv Ha. destruct a0 as [fe' body].
    destruct (truthy body) eqn:Et; cbn [negb] in Ha.
    + bind_inv Ha. inversion Ha; subst a; clear Ha.
      destruct (region_rows_inv _ _ _ _ _ Ha1) as
        [lp [n [items [pairs [Hd [Hl [Hi [Hf [Hs Hall]]]]]]]]].
      destruct (IH _ _ _ H) as [groups [Hsc Htabs]].
      exists ((r, pairs) :: groups). split.
      * eapply scraped_table; eassumption.
      * rewrite Htabs, <- app_assoc. simpl. unfold group_table at 2, group_rows.
        simpl. rewrite Hs. reflexivity.
    + inversion Ha; subst a; clear Ha.
      destruct (IH _ _ _ H) as [groups [Hsc Htabs]].
      exists groups. split; [| exact Htabs].
      eapply scraped_skip; eassumption.
Qed.

(** Conversely, what was scraped determines the run of the loop. *)
Lemma scraped_regions_loop (w : World) (now : datetime) (fe : option nat)
    (regions : list region) (groups : list group) :
  scraped w now fe regions groups ->
  forall tabs, exists fe',
    regions_loop w now (mkState fe tabs) regions
    = Ok (mkState fe' (tabs ++ map group_table groups)%list).
Proof.
  induction 1 as [fe
                 | fe r fe' body regions groups Hfetch Hfalse _ IH
                 | fe r fe' body lp n items pairs regions groups
                     Hfetch Htrue Hd Hl Hi Hf Hall _ IH]; intros tabs.
  - exists fe. simpl. rewrite app_nil_r. reflexivity.
  - destruct (IH tabs) as [fe'' Hloop]. exists fe''.
    cbn [regions_loop]. unfold region_body.
    cbn [first_event products_dataframe_list].
    rewrite Hfetch. cbn [bind]. rewrite Hfalse. cbn [negb bind]. exact Hloop.
  - destruct (IH (tabs ++ [group_table (r, pairs)])%list) as [fe'' Hloop].
    exists fe''. cbn [regions_loop]. unfold region_body.
    cbn [first_event products_dataframe_list].
    rewrite Hfetch. cbn [bind]. rewrite Htrue. cbn [negb].
    unfold region_rows. rewrite Hd. cbn [bind]. rewrite Hl. cbn [bind].
    rewrite Hi. cbn [bind]. rewrite <- Hf, (pairs_mapM _ _ Hall). cbn [bind].
    change (DataFrame_of_records (map snd pairs)) with (group_table (r, pairs)).
    rewrite Hloop. rewrite <- app_assoc. reflexivity.
Qed.

Lemma concat_group_tables (groups : list group) :
  List.concat (map df_rows (map group_table groups))
  = List.concat (map group_rows groups).
Proof.
  induction groups as [| g groups IH]; simpl; [reflexivity |].
  rewrite IH. reflexivity.
Qed.

(** The table a run returns, in terms of what it scraped. *)
Lemma webscraping_ara_scraped (w : World) (regions : list region) (df : DataFrame) :
  webscraping_ara w regions = Ok df ->
  exists groups,
    scraped w (datetime_now w) None regions groups /\
    df_rows df = List.concat (map group_rows groups) /\
    df_index df = seq 0 (List.length (df_rows df)).
Proof.
  unfold webscraping_ara. intros H. bind_inv H. bind_inv H.
  inversion H; subst df; clear H.
  destruct (regions_loop_scraped _ _ _ _ _ _ Ha) as [groups [Hsc Htabs]].
  simpl in Htabs. rewrite Htabs in Ha0.
  exists groups. split; [exact Hsc |].
  destruct groups as [| g groups]; [discriminate |].
  inversion Ha0; subst a0; clear Ha0.
  unfold reset_index. cbn [df_rows df_index].
  rewrite (concat_group_tables groups). split; reflexivity.
Qed.

Lemma scraped_tagged (w : World) (now : datetime) (fe : option nat)
    (regions : list region) (groups : list group) :
  scraped w now fe regions groups ->
  Forall (fun g => Forall (tagged now (fst g)) (group_rows g)) groups.
Proof.
  induction 1 as [fe
                 | fe r fe' body regions groups _ _ _ IH
                 | fe r fe' body lp n items pairs regions groups
                     _ _ _ _ _ _ Hall _ IH].
  - constructor.
  - exact IH.
  - constructor; [| exact IH].
    unfold group_rows. simpl. apply Forall_map.
    eapply Forall_impl; [| exact Hall].
    intros pr Hpr. eapply product_row_tags. exact Hpr.
Qed.

(** ** The network log scanner *)

Lemma admin_loop_first (pre : list pyval) (event : pyval) (post : list pyval)
    (n : nat) (fe : option nat) :
  Forall (fun e => mentions_admin e = false) pre ->
  mentions_admin event = true ->
  admin_loop n (pre ++ event :: post)%list fe = Some (n + List.length pre).
Proof.
  intros Hpre Hev. revert n.
  induction Hpre as [| e pre He _ IH]; intros n; simpl.
  - rewrite Hev. f_equal. lia.
  - rewrite He, IH. f_equal. lia.
Qed.

Lemma admin_loop_none (events : list pyval) (n : nat) (fe : option nat) :
  Forall (fun e => mentions_admin e = false) events ->
  admin_loop n events fe = fe.
Proof.
  intros H. revert n. induction H as [| e events He _ IH]; intros n; simpl.
  - reflexivity.
  - rewrite He. apply IH.
Qed.

(** X20.  The event whose request is fetched is the first one that
    mentions "admin", whatever [first_event] was before. *)
Lemma fetch_products_first_admin (w : World) (fe : option nat) (r : region)
    (browser_log pre : list pyval) (event : pyval) (post : list pyval) :
  performance_log w (region_url r) = Ok browser_log ->
  mapM (_process_browser_log_entry w) browser_log = Ok (pre ++ event :: post)%list ->
  Forall (fun e => mentions_admin e = false) pre ->
  mentions_admin event = true ->
  fetch_products w fe r
  = (params <- py_getitem event "params" ;;
     request_id <- py_getitem params "requestId" ;;
     response <- execute_cdp_cmd w (region_url r) request_id ;;
     products <- py_get response "body" ;;
     Ok (Some (List.length pre), products)).
Proof.
  intros Hlog Hev Hpre Hadmin. unfold fetch_products.
  rewrite Hlog. cbn [bind]. rewrite Hev. cbn [bind].
  rewrite (admin_loop_first _ _ _ _ _ Hpre Hadmin). cbn [read_local bind plus].
  unfold list_getitem. rewrite nth_error_app2 by lia.
  rewrite Nat.sub_diag. reflexivity.
Qed.

(** Without such an event, and with [first_event] still unbound, reading
    it raises. *)
Lemma fetch_products_unbound (w : World) (r : region)
    (browser_log events : list pyval) :
  performance_log w (region_url r) = Ok browser_log ->
  mapM (_process_browser_log_entry w) browser_log = Ok events ->
  Forall (fun e => mentions_admin e = false) events ->
  fetch_products w None r = Raise UnboundLocalError.
Proof.
  intros Hlog Hev Hnone. unfold fetch_products.
  rewrite Hlog. cbn [bind]. rewrite Hev. cbn [bind].
  rewrite (admin_loop_none _ _ _ Hnone). reflexivity.
Qed.

(** With [first_event] bound by an earlier region, the stale index is
    used on the events of this region. *)
Lemma fetch_products_stale (w : World) (i : nat) (r : region)
    (browser_log events : list pyval) :
  performance_log w (region_url r) = Ok browser_log ->
  mapM (_process_browser_log_entry w) browser_log = Ok events ->
  Forall (fun e => mentions_admin e = false) events ->
  fetch_products w (Some i) r
  = (event <- list_getitem events i ;;
     params <- py_getitem event "params" ;;
     request_id <- py_getitem params "requestId" ;;
     response <- execute_cdp_cmd w (region_url r) request_id ;;
     products <- py_get response "body" ;;
     Ok (Some i, products)).
Proof.
  intros Hlog Hev Hnone. unfold fetch_products.
  rewrite Hlog. cbn [bind]. rewrite Hev. cbn [bind].
  rewrite (admin_loop_none _ _ _ Hnone). reflexivity.
Qed.

(** C2 (defect in the code).  The log of [sur] has no event that mentions
    "admin".  Scraped on its own, [sur] aborts the run; scraped after the
    national page, whose matching event has index 1, it does not: the
    index is still bound, event 1 of the log of [sur] is taken for the
    catalog exchange, and the run returns a table whose third row was
    scraped under [sur]. *)
Theorem C2_stale_first_event_reused :
  (exists events,
      mapM (_process_browser_log_entry Sample.shop)
           [Sample.log_entry Sample.page_text; Sample.log_entry Sample.feed_text]
      = Ok events /\
      forallb (fun e => negb (mentions_admin e)) events = true) /\
  webscraping_ara Sample.shop [Some "sur"] = Raise UnboundLocalError /\
  exists df,
    webscraping_ara Sample.shop [None; Some "sur"] = Ok df /\
    List.length (df_rows df) = 3 /\
    exists row,
      nth_error (df_rows df) 2 = Some row /\
      dict_lookup row "extracted_region" = Some (PStr "sur").
Proof.
  split; [| split].
  - eexists. split; vm_compute; reflexivity.
  - vm_compute. reflexivity.
  - eexists. split; [vm_compute; reflexivity |].
    split; [reflexivity |]. eexists. split; reflexivity.
Qed.

(** ** Errors and skipped regions *)

Lemma region_body_missing_data (w : World) (now : datetime) (st : loop_state)
    (r : region) (fe' : option nat) (body : pyval) (d : pydict) :
  fetch_products w (first_event st) r = Ok (fe', body) ->
  truthy body = true ->
  py_json_loads w body = Ok (PDict d) ->
  dict_lookup d "data" = None ->
  region_body w now st r = Raise TypeError.
Proof.
  intros Hfetch Htrue Hjson Hdata. unfold region_body.
  rewrite Hfetch. cbn [bind]. rewrite Htrue. cbn [negb].
  unfold region_rows, decode_payload. rewrite Hjson. cbn [bind].
  unfold py_get. rewrite Hdata. reflexivity.
Qed.

(** C4, the claim as stated.  The payload of [oriente] decodes to a dict
    without "data".  The region is not passed over in silence: its
    iteration raises [TypeError], and so does the run, which loses the
    rows of the national page as well. *)
Lemma C4_missing_data_counterexample :
  (exists fe' body,
      fetch_products Sample.shop (Some 1) (Some "oriente") = Ok (fe', body) /\
      py_json_loads Sample.shop body = Ok (PDict [("status", PStr "ok")])) /\
  ~ (exists st,
        region_body Sample.shop Sample.now (mkState (Some 1) []) (Some "oriente")
        = Ok st) /\
  ~ (exists df, webscraping_ara Sample.shop [None; Some "oriente"] = Ok df).
Proof.
  split; [| split].
  - eexists. eexists. split; vm_compute; reflexivity.
  - intros [st H]. vm_compute in H. discriminate H.
  - intros [df H]. vm_compute in H. discriminate H.
Qed.

(** C4, amended.  When the body of a region is not empty and decodes to a
    dict without "data", taking the length of the missing list raises
    [TypeError]: the run over any list of regions that reaches this
    region aborts with that error and returns no table. *)
Theorem C4_missing_data_aborts (w : World) (pre : list region) (r : region)
    (post : list region) (st : loop_state) (fe' : option nat) (body : pyval)
    (d : pydict) :
  regions_loop w (datetime_now w) (mkState None []) pre = Ok st ->
  fetch_products w (first_event st) r = Ok (fe', body) ->
  truthy body = true ->
  py_json_loads w body = Ok (PDict d) ->
  dict_lookup d "data" = None ->
  webscraping_ara w (pre ++ r :: post)%list = Raise TypeError.
Proof.
  intros Hpre Hfetch Htrue Hjson Hdata. unfold webscraping_ara.
  rewrite regions_loop_app, Hpre. cbn [bind regions_loop].
  rewrite (region_body_missing_data _ _ _ _ _ _ _ Hfetch Htrue Hjson Hdata).
  reflexivity.
Qed.

Lemma C4_missing_data_aborts_witness :
  webscraping_ara Sample.shop ([None] ++ Some "oriente" :: [Some "norte"])%list
  = Raise TypeError.
Proof.
  eapply (C4_missing_data_aborts Sample.shop [None] (Some "oriente") [Some "norte"]).
  - vm_compute. reflexivity.
  - vm_compute. reflexivity.
  - vm_compute. reflexivity.
  - vm_compute. reflexivity.
  - vm_compute. reflexivity.
Defined.

(** C5.  A region whose response has no body, or an empty one, is
    skipped: its iteration ends without an exception and leaves the list
    of tables as it was, and the loop goes on with the regions that
    follow. *)
Theorem C5_empty_body_skips_region (w : World) (now : datetime) (st : loop_state)
    (r : region) (rest : list region) (fe' : option nat) (body : pyval) :
  fetch_products w (first_event st) r = Ok (fe', body) ->
  body = PNone \/ body = PStr "" ->
  region_body w now st r = Ok (mkState fe' (products_dataframe_list st)) /\
  regions_loop w now st (r :: rest)
  = regions_loop w now (mkState fe' (products_dataframe_list st)) rest.
Proof.
  intros Hfetch Hbody.
  assert (Hstep : region_body w now st r
                  = Ok (mkState fe' (products_dataframe_list st))).
  { unfold region_body. rewrite Hfetch. cbn [bind].
    destruct Hbody as [-> | ->]; reflexivity. }
  split; [exact Hstep |].
  cbn [regions_loop]. rewrite Hstep. reflexivity.
Qed.

Lemma C5_empty_body_skips_region_witness :
  region_body Sample.shop Sample.now (mkState (Some 1) [Sample.national_norte])
              (Some "norte")
  = Ok (mkState (Some 0) [Sample.national_norte]) /\
  regions_loop Sample.shop Sample.now (mkState (Some 1) [Sample.national_norte])
               [Some "norte"; Some "sur"]
  = regions_loop Sample.shop Sample.now (mkState (Some 0) [Sample.national_norte])
                 [Some "sur"].
Proof.
  apply (C5_empty_body_skips_region Sample.shop Sample.now
           (mkState (Some 1) [Sample.national_norte]) (Some "norte")
           [Some "sur"] (Some 0) (PStr "")).
  - vm_compute. reflexivity.
  - right. reflexivity.
Defined.

(** C7.  The rows of the returned table are the rows of the regions that
    were not skipped, region after region in the order of the list of
    regions, and within a region product after product in the order of
    its payload: nothing is dropped, merged or moved.  The index is
    [0, 1, ...]. *)
Theorem C7_rows_in_region_then_payload_order (w : World) (regions : list region)
    (df : DataFrame) :
  webscraping_ara w regions = Ok df ->
  exists groups,
    scraped w (datetime_now w) None regions groups /\
    df_rows df = List.concat (map (fun g => df_rows (group_table g)) groups) /\
    Forall (fun g => df_rows (group_table g) = map snd (snd g)) groups /\
    df_index df = seq 0 (List.length (df_rows df)).
Proof.
  intros H. destruct (webscraping_ara_scraped _ _ _ H) as [groups [Hsc [Hrows Hidx]]].
  exists groups. repeat split; try assumption.
  apply Forall_forall. intros g _. reflexivity.
Qed.

Lemma C7_rows_in_region_then_payload_order_witness :
  exists groups,
    scraped Sample.shop (datetime_now Sample.shop) None [None; Some "norte"] groups /\
    df_rows Sample.national_norte
    = List.concat (map (fun g => df_rows (group_table g)) groups) /\
    Forall (fun g => df_rows (group_table g) = map snd (snd g)) groups /\
    df_index Sample.national_norte
    = seq 0 (List.length (df_rows Sample.national_norte)).
Proof.
  apply (C7_rows_in_region_then_payload_order Sample.shop [None; Some "norte"]).
  vm_compute. reflexivity.
Defined.

(** C8.  Every row of the returned table carries the timestamp read once
    at the start of the run, the region it was scraped under ([None] for
    the national page), and the date and the time rendered from that same
    timestamp with "%Y%m%d" and "%H:%M:%S". *)
Theorem C8_rows_share_timestamp (w : World) (regions : list region)
    (df : DataFrame) :
  webscraping_ara w regions = Ok df ->
  exists groups,
    scraped w (datetime_now w) None regions groups /\
    df_rows df = List.concat (map group_rows groups) /\
    Forall (fun g => Forall (tagged (datetime_now w) (fst g)) (group_rows g)) groups.
Proof.
  intros H. destruct (webscraping_ara_scraped _ _ _ H) as [groups [Hsc [Hrows _]]].
  exists groups. repeat split; try assumption.
  eapply scraped_tagged. exact Hsc.
Qed.

Lemma C8_rows_share_timestamp_witness :
  exists groups,
    scraped Sample.shop (datetime_now Sample.shop) None [None; Some "norte"] groups /\
    df_rows Sample.national_norte = List.concat (map group_rows groups) /\
    Forall (fun g => Forall (tagged (datetime_now Sample.shop) (fst g)) (group_rows g))
           groups.
Proof.
  apply (C8_rows_share_timestamp Sample.shop [None; Some "norte"]).
  vm_compute. reflexivity.
Defined.

(** C10.  When no region of the list yields a table, because the list is
    empty or every region in it is skipped for a missing or empty body,
    the run does not return an empty table: the final concatenation is
    given an empty list and raises [ValueError]. *)
Theorem C10_no_table_raises (w : World) (regions : list region) :
  scraped w (datetime_now w) None regions [] ->
  webscraping_ara w regions = Raise ValueError.
Proof.
  intros H. destruct (scraped_regions_loop _ _ _ _ _ H []) as [fe' Hloop].
  unfold webscraping_ara. rewrite Hloop. reflexivity.
Qed.

Lemma C10_no_table_raises_witness :
  webscraping_ara Sample.shop [] = Raise ValueError /\
  webscraping_ara Sample.shop [Some "norte"; Some "norte"] = Raise ValueError.
Proof.
  split.
  - apply (C10_no_table_raises Sample.shop []). constructor.
  - apply (C10_no_table_raises Sample.shop [Some "norte"; Some "norte"]).
    eapply scraped_skip; [vm_compute; reflexivity | reflexivity |].
    eapply scraped_skip; [vm_compute; reflexivity | reflexivity |].
    constructor.
Defined.

(** ** The columns of the table *)

Lemma union_keys_In (ks acc : list string) (k : string) :
  In k (union_keys acc ks) <-> In k acc \/ In k ks.
Proof.
  revert acc. induction ks as [| x ks IH]; intros acc; simpl.
  - tauto.
  - destruct (mem_string x acc) eqn:E; rewrite IH.
    + apply mem_string_In in E. split; [tauto |].
      intros [H | [H | H]]; subst; tauto.
    + rewrite in_app_iff. simpl. tauto.
Qed.

Lemma union_keys_NoDup (ks acc : list string) :
  NoDup acc -> NoDup (union_keys acc ks).
Proof.
  revert acc. induction ks as [| x ks IH]; intros acc Hnd; simpl.
  - exact Hnd.
  - destruct (mem_string x acc) eqn:E; apply IH; [exact Hnd |].
    apply NoDup_app; [exact Hnd | repeat constructor; intros [] |].
    intros y Hy [Hx | []]. subst y. apply mem_string_In in Hy. congruence.
Qed.

Section FoldUnion.

Variable A : Type.
Variable labels : A -> list string.

Lemma fold_union_In (xs : list A) (acc : list string) (k : string) :
  In k (fold_union labels xs acc) <->
  In k acc \/ exists x, In x xs /\ In k (labels x).
Proof.
  unfold fold_union. revert acc. induction xs as [| x xs IH]; intros acc; simpl.
  - split; [tauto | intros [H | [x [[] _]]]; exact H].
  - rewrite IH, union_keys_In. split.
    + intros [[H | H] | [y [Hy Hk]]].
      * left. exact H.
      * right. exists x. split; [left; reflexivity | exact H].
      * right. exists y. split; [right; exact Hy | exact Hk].
    + intros [H | [y [[Hy | Hy] Hk]]].
      * left. left. exact H.
      * subst y. left. right. exact Hk.
      * right. exists y. split; assumption.
Qed.

Lemma fold_union_NoDup (xs : list A) (acc : list string) :
  NoDup acc -> NoDup (fold_union labels xs acc).
Proof.
  unfold fold_union. revert acc. induction xs as [| x xs IH]; intros acc H; simpl.
  - exact H.
  - apply IH, union_keys_NoDup, H.
Qed.

End FoldUnion.

Arguments fold_union_In {A} labels xs acc k.
Arguments fold_union_NoDup {A} labels xs acc _.

Lemma output_fields_names :
  output_fields
  = ["id"; "image_url"; "post_type"; "post_date"; "post_modified";
     "post_status"; "post_name"; "product_name"; "post_title";
     "comunicacion_type"; "product_description"; "sale_price"; "price";
     "price_type"; "brand"; "outstanding"; "sap_ean_code"; "region"; "measure";
     "product_url"; "category";
     "extracted_region"; "extracted_datetime"; "extracted_date"; "extracted_time"].
Proof. reflexivity. Qed.

Lemma output_fields_NoDup : NoDup output_fields.
Proof.
  rewrite output_fields_names.
  repeat (constructor; [simpl; intuition discriminate |]). constructor.
Qed.

(** The keys of a row are output fields; a row made from a product whose
    "meta" is true has all of them. *)
Lemma product_row_fields (w : World) (now : datetime) (r : region) (p : pyval)
    (row : pydict) :
  product_row w now r p = Ok row ->
  (forall k, In k (dict_keys row) -> In k output_fields) /\
  (forall meta, py_get p "meta" = Ok meta -> truthy meta = true ->
                forall k, In k output_fields -> In k (dict_keys row)).
Proof.
  intros H. destruct (product_row_keys _ _ _ _ _ H) as [rec [Hrec Hrow]].
  destruct (get_product_info_keys _ _ _ Hrec) as [meta [Hmeta Hkeys]].
  assert (Hpc : forall k, In k ["product_url"; "category"]
                          <-> k = "product_url" \/ k = "category")
    by (intros k; simpl; intuition congruence).
  unfold output_fields. split.
  - intros k Hk. apply Hrow in Hk. rewrite Hkeys in Hk.
    rewrite !in_app_iff, Hpc. tauto.
  - intros meta' Hmeta' Ht k Hk. rewrite Hmeta in Hmeta'.
    inversion Hmeta'; subst meta'. apply Hrow. rewrite Hkeys.
    rewrite !in_app_iff, Hpc in Hk. tauto.
Qed.

Lemma scraped_rows_fields (w : World) (now : datetime) (fe : option nat)
    (regions : list region) (groups : list group) :
  scraped w now fe regions groups ->
  Forall (fun g => Forall (fun pr => product_row w now (fst g) (fst pr) = Ok (snd pr))
                          (snd g)) groups.
Proof.
  induction 1; [constructor | assumption |].
  constructor; assumption.
Qed.

Lemma DataFrame_of_records_columns (records : list pydict) :
  df_columns (DataFrame_of_records records) = fold_union dict_keys records [].
Proof. reflexivity. Qed.

(** C9, the claim as stated.  The national page of the sample has a
    product with a "meta" map; the table of the run has 25 columns, not
    24, and its category cells are tuples.  The only product of
    [occidente] has a "meta" key too, bound to an empty map: the table of
    that run has the 15 columns that do not come from "meta". *)
Lemma C9_columns_counterexample :
  (exists meta, py_get Sample.milk "meta" = Ok meta /\ truthy meta = true) /\
  (dict_lookup
     [("ID", PInt 104); ("post_type", PStr "producto");
      ("post_name", PStr "vela"); ("meta", PDict [])] "meta" = Some (PDict []) /\
   exists df,
     webscraping_ara Sample.shop [Some "occidente"] = Ok df /\
     List.length (df_rows df) = 1 /\ List.length (df_columns df) = 15) /\
  ~ (exists df,
        webscraping_ara Sample.shop [None] = Ok df /\
        List.length (df_columns df) = 24) /\
  ~ (exists df,
        webscraping_ara Sample.shop [None] = Ok df /\
        Forall (fun row => forallb (fun kv => is_scalar (snd kv)) row = true)
               (df_rows df)).
Proof.
  split; [| split; [| split]].
  - eexists. split; reflexivity.
  - split; [reflexivity |]. eexists. split; [vm_compute; reflexivity |].
    split; reflexivity.
  - intros [df [H Hlen]]. vm_compute in H. inversion H; subst df.
    vm_compute in Hlen. discriminate Hlen.
  - intros [df [H Hall]]. vm_compute in H. inversion H; subst df.
    cbn [df_rows] in Hall. inversion Hall as [| row rows Hrow _]; subst.
    vm_compute in Hrow. discriminate Hrow.
Qed.

(** C9, amended.  A run in which at least one scraped product has a
    "meta" value that is true returns a table whose columns are exactly
    the 25 fields from [id] to [extracted_time], each once. *)
Theorem C9_twenty_five_columns (w : World) (regions : list region)
    (groups : list group) :
  scraped w (datetime_now w) None regions groups ->
  some_meta groups ->
  exists df,
    webscraping_ara w regions = Ok df /\
    Permutation (df_columns df) output_fields /\
    List.length (df_columns df) = 25.
Proof.
  intros Hsc [g [pr [meta [Hg [Hpr [Hmeta Ht]]]]]].
  destruct (scraped_regions_loop _ _ _ _ _ Hsc []) as [fe' Hloop].
  pose proof (scraped_rows_fields _ _ _ _ _ Hsc) as Hrows.
  rewrite Forall_forall in Hrows.
  unfold webscraping_ara. rewrite Hloop. cbn [bind products_dataframe_list app].
  destruct groups as [| g0 groups0] eqn:Eg; [contradiction Hg |].
  rewrite <- Eg in *. clear Eg g0 groups0.
  assert (Hconcat : exists df0,
             pd_concat (map group_table groups) = Ok df0 /\
             df_columns df0
             = fold_union df_columns (map group_table groups) []).
  { destruct groups as [| g0 groups0]; [contradiction Hg |].
    eexists. split; reflexivity. }
  destruct Hconcat as [df0 [Hdf0 Hcols]]. rewrite Hdf0. cbn [bind].
  eexists. split; [reflexivity |].
  assert (Hperm : Permutation (df_columns (reset_index df0)) output_fields).
  { apply NoDup_Permutation.
    - cbn [reset_index df_columns]. rewrite Hcols.
      apply fold_union_NoDup. constructor.
    - exact output_fields_NoDup.
    - intros k. cbn [reset_index df_columns]. rewrite Hcols, fold_union_In.
      split.
      + intros [[] | [t [Hin Hk]]].
        apply in_map_iff in Hin. destruct Hin as [g1 [<- Hg1]].
        unfold group_table in Hk. rewrite DataFrame_of_records_columns in Hk.
        apply fold_union_In in Hk. destruct Hk as [[] | [row [Hrow Hk]]].
        unfold group_rows in Hrow. apply in_map_iff in Hrow.
        destruct Hrow as [pr1 [<- Hpr1]].
        pose proof (Hrows g1 Hg1) as Hall. rewrite Forall_forall in Hall.
        destruct (product_row_fields _ _ _ _ _ (Hall pr1 Hpr1)) as [Hsub _].
        apply Hsub. exact Hk.
      + intros Hk. right. exists (group_table g). split.
        * apply in_map. exact Hg.
        * unfold group_table. rewrite DataFrame_of_records_columns.
          apply fold_union_In. right. exists (snd pr). split.
          -- unfold group_rows. apply in_map. exact Hpr.
          -- pose proof (Hrows g Hg) as Hall. rewrite Forall_forall in Hall.
             destruct (product_row_fields _ _ _ _ _ (Hall pr Hpr)) as [_ Hsup].
             apply (Hsup meta Hmeta Ht). exact Hk. }
  split; [exact Hperm |].
  rewrite (Permutation_length Hperm). reflexivity.
Qed.

Lemma C9_twenty_five_columns_witness :
  exists df,
    webscraping_ara Sample.shop [None] = Ok df /\
    Permutation (df_columns df) output_fields /\
    List.length (df_columns df) = 25.
Proof.
  apply (C9_twenty_five_columns Sample.shop [None]
           [(None,
             [(Sample.milk,
               nth 0 (df_rows Sample.national_norte) []);
              (Sample.rice,
               nth 1 (df_rows Sample.national_norte) [])])]).
  - eapply scraped_table.
    + vm_compute. reflexivity.
    + reflexivity.
    + vm_compute. reflexivity.
    + reflexivity.
    + reflexivity.
    + reflexivity.
    + repeat constructor.
    + constructor.
  - exists (None,
            [(Sample.milk, nth 0 (df_rows Sample.national_norte) []);
             (Sample.rice, nth 1 (df_rows Sample.national_norte) [])]),
           (Sample.milk, nth 0 (df_rows Sample.national_norte) []).
    eexists. split; [left; reflexivity |].
    split; [left; reflexivity |]. split; reflexivity.
Defined.


(** * Further properties *)

(** ** More on the record normalizer *)

Lemma get_first_element_value (m : pydict) (key : string) (v : string) :
  key <> "" ->
  _get_first_element (PDict m) key = Ok v ->
  v = if bound_to_list m key then key_initial key else "".
Proof.
  intros Hne. unfold _get_first_element, bound_to_list, py_get.
  destruct key as [| c rest]; [contradiction Hne; reflexivity |].
  destruct (dict_lookup m (String c rest)) as [x |]; cbn [bind].
  - destruct (isinstance_list x); intros H; inversion H; reflexivity.
  - cbn. intros H; inversion H; reflexivity.
Qed.

Lemma set_meta_fields_values (meta : pyval) (fields : list (string * string))
    (acc rec : pydict) :
  set_meta_fields meta fields acc = Ok rec ->
  NoDup (map fst fields) ->
  Forall (fun fk => exists v, _get_first_element meta (snd fk) = Ok v /\
                              dict_lookup rec (fst fk) = Some (PStr v)) fields.
Proof.
  revert acc. induction fields as [| [field key] fields IH]; intros acc H Hnd.
  - constructor.
  - cbn [set_meta_fields] in H. bind_inv H.
    inversion Hnd as [| x l Hnotin Hnd']; subst.
    constructor; [| exact (IH _ H Hnd')].
    exists a. split; [exact Ha |]. cbn [fst].
    rewrite (set_meta_fields_lookup _ _ _ _ _ H Hnotin).
    apply dict_lookup_set_same.
Qed.

Lemma meta_fields_facts :
  NoDup (map fst meta_fields) /\
  Forall (fun fk => snd fk <> "" /\ fst fk <> "product_url" /\ fst fk <> "category")
         meta_fields.
Proof.
  split.
  - repeat (constructor; [simpl; intuition discriminate |]). constructor.
  - repeat (constructor; [repeat split; discriminate |]). constructor.
Qed.

(** X1.  For a product whose "meta" is a map that is not empty, each of
    the ten meta fields of the normalized record is the first character
    of its source key when the key is bound to a list, and the empty
    string otherwise: what the list holds, and whether it holds anything,
    has no influence. *)
Theorem X1_meta_fields_ignore_list_contents (w : World) (d m : pydict)
    (rec : pydict) :
  dict_lookup d "meta" = Some (PDict m) ->
  m <> [] ->
  _get_product_info w (PDict d) = Ok rec ->
  Forall (fun fk =>
            dict_lookup rec (fst fk)
            = Some (PStr (if bound_to_list m (snd fk)
                          then key_initial (snd fk) else "")))
         meta_fields.
Proof.
  intros Hmeta Hne H. unfold _get_product_info in H.
  bind_inv H. bind_inv H. bind_inv H. bind_inv H. bind_inv H. bind_inv H.
  inversion H; subst rec; clear H.
  unfold py_get in Ha0. rewrite Hmeta in Ha0. inversion Ha0; subst a0; clear Ha0.
  assert (Ht : truthy (PDict m) = true) by (destruct m; [contradiction | reflexivity]).
  rewrite Ht in Ha1.
  destruct meta_fields_facts as [Hnd Hfacts].
  pose proof (set_meta_fields_values _ _ _ _ Ha1 Hnd) as Hvals.
  rewrite Forall_forall in *. intros fk Hin.
  destruct (Hvals fk Hin) as [v [Hv Hlook]].
  destruct (Hfacts fk Hin) as [Hkey [Hurl Hcat]].
  rewrite !dict_lookup_set_other by (intros E; symmetry in E; contradiction).
  rewrite Hlook. rewrite (get_first_element_value _ _ _ Hkey Hv). reflexivity.
Qed.

(** X2.  A "meta" value that is true but is not a map (a list, a string,
    a number) makes the normalizer raise [AttributeError] at the first
    [meta.get], before any HTTP request: the result is the same in every
    world. *)
Theorem X2_meta_not_a_map_raises (w : World) (d : pydict) (meta : pyval) :
  dict_lookup d "meta" = Some meta ->
  truthy meta = true ->
  (forall m, meta <> PDict m) ->
  _get_product_info w (PDict d) = Raise AttributeError.
Proof.
  intros Hmeta Ht Hnd. unfold _get_product_info.
  destruct (set_direct_fields_total d direct_fields []) as [rec0 H0].
  rewrite H0. cbn [bind]. unfold py_get at 1. rewrite Hmeta. cbn [bind].
  rewrite Ht.
  destruct meta; try reflexivity.
  exfalso. apply (Hnd d0). reflexivity.
Qed.

Lemma X1_meta_fields_ignore_list_contents_witness :
  Forall (fun fk =>
            dict_lookup Sample.flour_record (fst fk)
            = Some (PStr (if bound_to_list
                               [("marca", PList []); ("precio_referente", PStr "2100")]
                               (snd fk)
                          then key_initial (snd fk) else "")))
         meta_fields.
Proof.
  apply (X1_meta_fields_ignore_list_contents Sample.shop Sample.flour_fields
           [("marca", PList []); ("precio_referente", PStr "2100")]).
  - reflexivity.
  - discriminate.
  - vm_compute. reflexivity.
Defined.

Lemma X2_meta_not_a_map_raises_witness :
  _get_product_info Sample.shop
    (PDict [("post_name", PStr "harina"); ("meta", PList [PStr "marca"])])
  = Raise AttributeError.
Proof.
  apply (X2_meta_not_a_map_raises Sample.shop
           [("post_name", PStr "harina"); ("meta", PList [PStr "marca"])]
           (PList [PStr "marca"])).
  - reflexivity.
  - reflexivity.
  - discriminate.
Defined.

Lemma set_direct_fields_lookup (p : pyval) (fields : list (string * string))
    (acc rec : pydict) (k : string) :
  set_direct_fields p fields acc = Ok rec ->
  ~ In k (map fst fields) ->
  dict_lookup rec k = dict_lookup acc k.
Proof.
  revert acc. induction fields as [| [field key] fields IH]; simpl; intros acc H Hk.
  - inversion H; subst. reflexivity.
  - bind_inv H. rewrite (IH _ H) by tauto.
    apply dict_lookup_set_other. intros E. apply Hk. left. exact E.
Qed.

(** Every assignment but the last to a field is overwritten: after the
    loop a field holds the value of its last source key.  The fields of
    the script are distinct, so each holds the value of its one key. *)
Lemma set_direct_fields_values (d : pydict) (fields : list (string * string))
    (acc rec : pydict) :
  set_direct_fields (PDict d) fields acc = Ok rec ->
  NoDup (map fst fields) ->
  Forall (fun fk => dict_lookup rec (fst fk) = Some (get_or_none d (snd fk))) fields.
Proof.
  revert acc. induction fields as [| [field key] fields IH]; intros acc H Hnd.
  - constructor.
  - cbn [set_direct_fields] in H. bind_inv H.
    inversion Hnd as [| x l Hnotin Hnd']; subst.
    constructor; [| exact (IH _ H Hnd')].
    cbn [fst snd]. rewrite (set_direct_fields_lookup _ _ _ _ _ H Hnotin).
    rewrite dict_lookup_set_same. f_equal.
    unfold py_get in Ha. unfold get_or_none.
    destruct (dict_lookup d key); inversion Ha; reflexivity.
Qed.

Lemma direct_fields_facts :
  NoDup (map fst direct_fields) /\
  Forall (fun fk => ~ In (fst fk) (map fst meta_fields) /\
                    fst fk <> "product_url" /\ fst fk <> "category")
         direct_fields.
Proof.
  split.
  - repeat (constructor; [simpl; intuition discriminate |]). constructor.
  - repeat (constructor;
            [split; [simpl; intuition discriminate | split; discriminate] |]).
    constructor.
Qed.

(** X3.  The nine copied fields of a normalized record hold what
    [product_info.get] returns for their source key, [None] when the key
    is missing: [id] from "ID", [image_url] from "image", and both
    [post_name] and [product_name] from "post_name".  No later assignment
    of the normalizer touches them. *)
Theorem X3_direct_fields_copied (w : World) (d rec : pydict) :
  _get_product_info w (PDict d) = Ok rec ->
  Forall (fun fk => dict_lookup rec (fst fk) = Some (get_or_none d (snd fk)))
         direct_fields.
Proof.
  intros H. unfold _get_product_info in H.
  bind_inv H. bind_inv H. bind_inv H. bind_inv H. bind_inv H. bind_inv H.
  inversion H; subst rec; clear H.
  destruct direct_fields_facts as [Hnd Hfacts].
  pose proof (set_direct_fields_values _ _ _ _ Ha Hnd) as Hvals.
  rewrite Forall_forall in *. intros fk Hin.
  destruct (Hfacts fk Hin) as [Hmeta [Hurl Hcat]].
  rewrite !dict_lookup_set_other by (intros E; symmetry in E; contradiction).
  rewrite <- (Hvals fk Hin).
  destruct (truthy a0).
  - apply (set_meta_fields_lookup _ _ _ _ _ Ha1 Hmeta).
  - inversion Ha1; subst. reflexivity.
Qed.

Lemma X3_direct_fields_copied_witness :
  Forall (fun fk => dict_lookup Sample.flour_record (fst fk)
                    = Some (get_or_none Sample.flour_fields (snd fk)))
         direct_fields.
Proof.
  apply (X3_direct_fields_copied Sample.shop Sample.flour_fields).
  vm_compute. reflexivity.
Defined.

Lemma get_product_info_request (w : World) (p : pyval) (rec : pydict) :
  _get_product_info w p = Ok rec ->
  exists product_type product_name resolved,
    py_get p "post_type" = Ok product_type /\
    py_get p "post_name" = Ok product_name /\
    requests_get_url w
      (site_base ++ py_str product_type ++ "/" ++ py_str product_name ++ "/")
      = Ok resolved /\
    dict_lookup rec "product_url"
    = Some (PStr (site_base ++ py_str product_type ++ "/"
                  ++ py_str product_name ++ "/")).
Proof.
  unfold _get_product_info. intros H.
  bind_inv H. bind_inv H. bind_inv H. bind_inv H. bind_inv H. bind_inv H.
  inversion H; subst; clear H.
  destruct (direct_fields_type_name _ _ Ha) as [ty [nm [Hty [Hnm [Lty Lnm]]]]].
  assert (Lboth : dict_lookup a1 "post_type" = Some ty /\
                  dict_lookup a1 "product_name" = Some nm).
  { destruct (truthy a0).
    - split; [rewrite <- Lty | rewrite <- Lnm];
        apply (set_meta_fields_lookup _ _ _ _ _ Ha1); simpl;
        intuition discriminate.
    - inversion Ha1; subst. split; assumption. }
  destruct Lboth as [Lty' Lnm'].
  unfold py_get in Ha2, Ha3. rewrite Lnm' in Ha2. rewrite Lty' in Ha3.
  inversion Ha2; subst a2. inversion Ha3; subst a3.
  exists ty, nm, a4.
  split; [exact Hty |]. split; [exact Hnm |]. split; [exact Ha4 |].
  rewrite dict_lookup_set_other by discriminate.
  apply dict_lookup_set_same.
Qed.

(** X4.  The [product_url] of a normalized record is the URL that was
    requested, built from the "post_type" and the "post_name" of the raw
    record ("None" for a missing one), and not the URL the redirect led
    to; the request for it was answered. *)
Theorem X4_product_url_is_requested_url (w : World) (d rec : pydict) :
  _get_product_info w (PDict d) = Ok rec ->
  let url := site_base ++ py_str (get_or_none d "post_type") ++ "/"
             ++ py_str (get_or_none d "post_name") ++ "/" in
  dict_lookup rec "product_url" = Some (PStr url) /\
  exists resolved, requests_get_url w url = Ok resolved.
Proof.
  intros H.
  destruct (get_product_info_request w (PDict d) rec H)
    as [ty [nm [resolved [Hty [Hnm [Hreq Hurl]]]]]].
  unfold py_get in Hty, Hnm. unfold get_or_none.
  assert (Ety : ty = match dict_lookup d "post_type" with Some v => v | None => PNone end)
    by (destruct (dict_lookup d "post_type"); inversion Hty; reflexivity).
  assert (Enm : nm = match dict_lookup d "post_name" with Some v => v | None => PNone end)
    by (destruct (dict_lookup d "post_name"); inversion Hnm; reflexivity).
  subst ty nm. cbv zeta. split; [exact Hurl |].
  exists resolved. exact Hreq.
Qed.

Lemma X4_product_url_is_requested_url_witness :
  let d := [("post_type", PStr "producto"); ("post_name", PStr "arroz")] in
  let url := site_base ++ py_str (get_or_none d "post_type") ++ "/"
             ++ py_str (get_or_none d "post_name") ++ "/" in
  dict_lookup (Sample.record_of (_get_product_info Sample.shop (PDict d)))
              "product_url" = Some (PStr url) /\
  exists resolved, requests_get_url Sample.shop url = Ok resolved.
Proof.
  apply (X4_product_url_is_requested_url Sample.shop
           [("post_type", PStr "producto"); ("post_name", PStr "arroz")]).
  vm_compute. reflexivity.
Defined.

(** ** The keys of a row, in order *)

Lemma dict_keys_set_fresh (d : pydict) (k : string) (v : pyval) :
  ~ In k (dict_keys d) -> dict_keys (dict_set d k v) = (dict_keys d ++ [k])%list.
Proof.
  unfold dict_keys. induction d as [| [k' v'] d IH]; simpl; intros Hk.
  - reflexivity.
  - destruct (String.eqb k' k) eqn:E.
    + apply String.eqb_eq in E. subst. exfalso. apply Hk. left. reflexivity.
    + simpl. rewrite IH by tauto. reflexivity.
Qed.

Lemma dict_keys_set_fresh_eq (d : pydict) (k : string) (v : pyval)
    (ks : list string) :
  dict_keys d = ks -> ~ In k ks ->
  dict_keys (dict_set d k v) = (ks ++ [k])%list.
Proof.
  intros <- Hk. apply dict_keys_set_fresh. exact Hk.
Qed.

(** One more assignment to a key that is new: [K] states the keys of a
    dict the goal assigns to, and is moved to the dict after it. *)
Ltac push_key K :=
  match type of K with
  | dict_keys ?d = ?ks =>
      match goal with
      | |- context [dict_set d ?k ?v] =>
          let K' := fresh "K" in
          assert (K' : dict_keys (dict_set d k v) = (ks ++ [k])%list)
            by (apply dict_keys_set_fresh_eq;
                [exact K | simpl; intuition discriminate]);
          cbn [app] in K'; clear K; rename K' into K
      end
  end.

Lemma NoDup_app_head (l : list string) (k : string) (rest : list string) :
  NoDup (l ++ k :: rest) -> ~ In k l /\ NoDup ((l ++ [k]) ++ rest).
Proof.
  intros H. split.
  - apply NoDup_remove_2 in H. intros Hin. apply H. apply in_or_app. left. exact Hin.
  - rewrite <- app_assoc. exact H.
Qed.

Lemma set_direct_fields_key_order (p : pyval) (fields : list (string * string))
    (acc rec : pydict) :
  set_direct_fields p fields acc = Ok rec ->
  NoDup (dict_keys acc ++ map fst fields) ->
  dict_keys rec = (dict_keys acc ++ map fst fields)%list.
Proof.
  revert acc. induction fields as [| [field key] fields IH]; intros acc H Hnd.
  - inversion H; subst. simpl. rewrite app_nil_r. reflexivity.
  - cbn [set_direct_fields] in H. bind_inv H. cbn [map fst] in *.
    destruct (NoDup_app_head _ _ _ Hnd) as [Hfresh Hnd'].
    rewrite (IH _ H); rewrite dict_keys_set_fresh by exact Hfresh.
    + rewrite <- app_assoc. reflexivity.
    + exact Hnd'.
Qed.

Lemma set_meta_fields_key_order (meta : pyval) (fields : list (string * string))
    (acc rec : pydict) :
  set_meta_fields meta fields acc = Ok rec ->
  NoDup (dict_keys acc ++ map fst fields) ->
  dict_keys rec = (dict_keys acc ++ map fst fields)%list.
Proof.
  revert acc. induction fields as [| [field key] fields IH]; intros acc H Hnd.
  - inversion H; subst. simpl. rewrite app_nil_r. reflexivity.
  - cbn [set_meta_fields] in H. bind_inv H. cbn [map fst] in *.
    destruct (NoDup_app_head _ _ _ Hnd) as [Hfresh Hnd'].
    rewrite (IH _ H); rewrite dict_keys_set_fresh by exact Hfresh.
    + rewrite <- app_assoc. reflexivity.
    + exact Hnd'.
Qed.

Lemma plain_fields_names :
  plain_fields
  = ["id"; "image_url"; "post_type"; "post_date"; "post_modified";
     "post_status"; "post_name"; "product_name"; "post_title";
     "product_url"; "category";
     "extracted_region"; "extracted_datetime"; "extracted_date"; "extracted_time"].
Proof. reflexivity. Qed.

Lemma product_row_key_order (w : World) (now : datetime) (r : region)
    (p : pyval) (row : pydict) :
  product_row w now r p = Ok row ->
  exists meta,
    py_get p "meta" = Ok meta /\
    dict_keys row = if truthy meta then output_fields else plain_fields.
Proof.
  unfold product_row, _get_product_info. intros H.
  bind_inv H. bind_inv Ha. bind_inv Ha. bind_inv Ha. bind_inv Ha. bind_inv Ha.
  bind_inv Ha. inversion Ha; subst a; clear Ha. inversion H; subst row; clear H.
  exists a1. split; [exact Ha1 |].
  assert (H0 : dict_keys a0 = map fst direct_fields).
  { apply (set_direct_fields_key_order _ _ _ _ Ha0).
    simpl. repeat (constructor; [simpl; intuition discriminate |]). constructor. }
  destruct (truthy a1).
  - assert (K : dict_keys a2
                = (map fst direct_fields ++ map fst meta_fields)%list).
    { rewrite (set_meta_fields_key_order _ _ _ _ Ha2); rewrite H0; [reflexivity |].
      simpl. repeat (constructor; [simpl; intuition discriminate |]). constructor. }
    cbn [direct_fields meta_fields map fst app] in K.
    do 6 (push_key K). exact K.
  - inversion Ha2; subst a2. rename H0 into K.
    cbn [direct_fields map fst] in K.
    do 6 (push_key K). exact K.
Qed.

(** X5.  The keys of a row, in the order they were assigned: the 25
    output fields when the "meta" of the product is true, and otherwise
    the 15 of them that do not come from "meta". *)
Theorem X5_row_keys_in_order (w : World) (now : datetime) (r : region)
    (p : pyval) (row : pydict) :
  product_row w now r p = Ok row ->
  exists meta,
    py_get p "meta" = Ok meta /\
    dict_keys row = if truthy meta then output_fields else plain_fields.
Proof.
  intros H. destruct (product_row_key_order _ _ _ _ _ H) as [meta [Hmeta Hkeys]].
  exists meta. split; [exact Hmeta | exact Hkeys].
Qed.

Lemma X5_row_keys_in_order_witness :
  exists meta,
    py_get (PDict Sample.flour_fields) "meta" = Ok meta /\
    dict_keys Sample.flour_row = if truthy meta then output_fields else plain_fields.
Proof.
  apply (X5_row_keys_in_order Sample.shop Sample.now (Some "sur")
           (PDict Sample.flour_fields)).
  vm_compute. reflexivity.
Defined.

(** X6.  Tagging a normalized record with the four extraction fields
    overwrites none of its fields: every key of the record is bound in the
    row to the same value. *)
Theorem X6_tagging_keeps_record (w : World) (now : datetime) (r : region)
    (p : pyval) (row : pydict) :
  product_row w now r p = Ok row ->
  exists rec,
    _get_product_info w p = Ok rec /\
    forall k, In k (dict_keys rec) -> dict_lookup row k = dict_lookup rec k.
Proof.
  unfold product_row. intros H. bind_inv H. inversion H; subst row; clear H.
  exists a. split; [exact Ha |]. intros k Hk.
  destruct (get_product_info_keys _ _ _ Ha) as [meta [_ Hkeys]].
  apply Hkeys in Hk.
  assert (Hne : k <> "extracted_region" /\ k <> "extracted_datetime" /\
                k <> "extracted_date" /\ k <> "extracted_time").
  { simpl in Hk. repeat split; intros ->; intuition discriminate. }
  destruct Hne as [H1 [H2 [H3 H4]]].
  rewrite !dict_lookup_set_other by (intros E; symmetry in E; contradiction).
  reflexivity.
Qed.

Lemma X6_tagging_keeps_record_witness :
  exists rec,
    _get_product_info Sample.shop (PDict Sample.flour_fields) = Ok rec /\
    forall k, In k (dict_keys rec) ->
              dict_lookup Sample.flour_row k = dict_lookup rec k.
Proof.
  apply (X6_tagging_keeps_record Sample.shop Sample.now (Some "sur")
           (PDict Sample.flour_fields)).
  vm_compute. reflexivity.
Defined.

(** ** More on the category *)

Lemma get_product_info_category (w : World) (p : pyval) (rec : pydict) :
  _get_product_info w p = Ok rec ->
  exists product_type product_name resolved,
    dict_lookup rec "category"
    = Some (PTuple [PStr (category_text (str_replace resolved "%" "")
                                        product_type product_name)]).
Proof.
  unfold _get_product_info. intros H.
  bind_inv H. bind_inv H. bind_inv H. bind_inv H. bind_inv H. bind_inv H.
  inversion H; subst; clear H.
  exists (py_str a3), (py_str a2), a4. apply dict_lookup_set_same.
Qed.

(** Deleting occurrences brings in no character. *)
Lemma replace_go_deletes (old : string) (c : ascii) (s : string) :
  forall skip,
    In c (list_ascii_of_string (replace_go old "" skip s)) ->
    In c (list_ascii_of_string s).
Proof.
  induction s as [| x s IH]; intros skip H.
  - exact H.
  - cbn [replace_go] in H. destruct skip as [| k].
    + destruct (String.prefix old (String x s)).
      * right. apply (IH _ H).
      * simpl in H. destruct H as [H | H]; [left; exact H | right; apply (IH _ H)].
    + right. apply (IH _ H).
Qed.

Lemma replace_empty_same (s : string) : replace_empty "" s = s.
Proof.
  induction s as [| x s IH]; simpl; [reflexivity | rewrite IH; reflexivity].
Qed.

Lemma str_replace_deletes (s old : string) (c : ascii) :
  In c (list_ascii_of_string (str_replace s old "")) ->
  In c (list_ascii_of_string s).
Proof.
  unfold str_replace. destruct (String.eqb old "").
  - rewrite replace_empty_same. exact (fun H => H).
  - apply replace_go_deletes.
Qed.

(** Deleting a character leaves none of it. *)
Lemma replace_go_char_gone (c : ascii) (s : string) :
  ~ In c (list_ascii_of_string (replace_go (String c "") "" 0 s)).
Proof.
  induction s as [| x s IH]; [exact (fun H => H) |].
  cbn [replace_go String.prefix String.length Nat.sub].
  destruct (ascii_dec c x) as [-> | Hne].
  - destruct s; exact IH.
  - simpl. intros [H | H]; [apply Hne; symmetry; exact H | exact (IH H)].
Qed.

(** X7.  The text of a category never has a "%": the resolved URL loses
    every "%" first, and the three deletions bring none back. *)
Theorem X7_category_has_no_percent (w : World) (p : pyval) (rec : pydict) :
  _get_product_info w p = Ok rec ->
  exists category text,
    dict_lookup rec "category" = Some category /\
    carried_text category = Some text /\
    ~ In "%"%char (list_ascii_of_string text).
Proof.
  intros H.
  destruct (get_product_info_category _ _ _ H) as [ty [nm [resolved Hcat]]].
  eexists. eexists. split; [exact Hcat |]. split; [reflexivity |].
  unfold category_text. intros Hin.
  do 3 apply str_replace_deletes in Hin.
  revert Hin. unfold str_replace. cbn [String.eqb Ascii.eqb Bool.eqb].
  apply replace_go_char_gone.
Qed.

Lemma X7_category_has_no_percent_witness :
  exists category text,
    dict_lookup Sample.flour_record "category" = Some category /\
    carried_text category = Some text /\
    ~ In "%"%char (list_ascii_of_string text).
Proof.
  apply (X7_category_has_no_percent Sample.shop (PDict Sample.flour_fields)).
  vm_compute. reflexivity.
Defined.



Lemma length_append (a b : string) :
  String.length (a ++ b) = String.length a + String.length b.
Proof.
  induction a as [| x a IH]; simpl; [reflexivity | rewrite IH; reflexivity].
Qed.



(** ** More on the scan of the log *)

Lemma mapM_first_error {A B : Type} (f : A -> result B) (pre : list A) (x : A)
    (post : list A) (e : exn) :
  Forall (fun a => exists b, f a = Ok b) pre ->
  f x = Raise e ->
  mapM f (pre ++ x :: post)%list = Raise e.
Proof.
  intros Hpre Hx. induction Hpre as [| a pre [b Hb] _ IH]; simpl.
  - rewrite Hx. reflexivity.
  - rewrite Hb. cbn [bind]. rewrite IH. reflexivity.
Qed.

(** X10.  Every entry of the performance log is decoded before the scan
    starts: one entry that cannot be decoded, wherever it stands and
    whatever the others are, ends the iteration of the region with its
    exception, also when the catalog exchange is in the log. *)
Theorem X10_undecodable_entry_aborts_region (w : World) (now : datetime)
    (st : loop_state) (r : region) (pre : list pyval) (entry : pyval)
    (post : list pyval) (e : exn) :
  performance_log w (region_url r) = Ok (pre ++ entry :: post)%list ->
  Forall (fun a => exists event, _process_browser_log_entry w a = Ok event) pre ->
  _process_browser_log_entry w entry = Raise e ->
  region_body w now st r = Raise e.
Proof.
  intros Hlog Hpre Hbad. unfold region_body, fetch_products.
  rewrite Hlog. cbn [bind].
  rewrite (mapM_first_error _ _ _ _ _ Hpre Hbad). reflexivity.
Qed.

Lemma X10_undecodable_entry_aborts_region_witness :
  region_body Sample.noisy Sample.now (mkState None []) None = Raise KeyError.
Proof.
  apply (X10_undecodable_entry_aborts_region Sample.noisy Sample.now
           (mkState None []) None
           [Sample.log_entry (Sample.catalog_text "1000.2")]
           (PDict [("level", PStr "INFO")]) []).
  - reflexivity.
  - repeat constructor. eexists. vm_compute. reflexivity.
  - reflexivity.
Defined.

(** X11.  In the first region of a run, a log without an event that
    mentions "admin" (an empty log for one) makes the run raise
    [UnboundLocalError]: [first_event] is read before any assignment. *)
Theorem X11_first_region_without_match_raises (w : World) (r : region)
    (rest : list region) (browser_log events : list pyval) :
  performance_log w (region_url r) = Ok browser_log ->
  mapM (_process_browser_log_entry w) browser_log = Ok events ->
  Forall (fun event => mentions_admin event = false) events ->
  webscraping_ara w (r :: rest) = Raise UnboundLocalError.
Proof.
  intros Hlog Hev Hnone. unfold webscraping_ara. cbn [regions_loop].
  unfold region_body. cbn [first_event].
  rewrite (fetch_products_unbound _ _ _ _ Hlog Hev Hnone). reflexivity.
Qed.

Lemma X11_first_region_without_match_raises_witness :
  webscraping_ara Sample.shop [Some "sur"; None] = Raise UnboundLocalError.
Proof.
  eapply (X11_first_region_without_match_raises Sample.shop (Some "sur") [None]).
  - reflexivity.
  - vm_compute. reflexivity.
  - repeat constructor.
Defined.

(** X12.  Once bound, [first_event] stays bound, and an iteration that
    ends without an exception leaves it bound: after a loop over at least
    one region the variable holds an index. *)
Theorem X12_first_event_stays_bound (w : World) (now : datetime)
    (regions : list region) (st st' : loop_state) :
  regions_loop w now st regions = Ok st' ->
  regions <> [] \/ first_event st <> None ->
  first_event st' <> None.
Proof.
  revert st. induction regions as [| r regions IH]; intros st H Hor.
  - inversion H; subst. destruct Hor as [Hne | Hb]; [contradiction Hne; reflexivity | exact Hb].
  - cbn [regions_loop] in H. bind_inv H. apply (IH _ H). right.
    unfold region_body in Ha. bind_inv Ha. destruct a0 as [fe' body].
    unfold fetch_products in Ha0.
    bind_inv Ha0. bind_inv Ha0. bind_inv Ha0.
    assert (Hfe : admin_loop 0 a1 (first_event st) <> None).
    { destruct (admin_loop 0 a1 (first_event st)); [discriminate | discriminate Ha3]. }
    bind_inv Ha0. bind_inv Ha0. bind_inv Ha0. bind_inv Ha0. bind_inv Ha0.
    inversion Ha0; subst fe' body; clear Ha0.
    destruct (negb (truthy a7)).
    + inversion Ha; subst a. exact Hfe.
    + bind_inv Ha. inversion Ha; subst a. exact Hfe.
Qed.

Lemma X12_first_event_stays_bound_witness :
  first_event (mkState (Some 0) [Sample.national_norte]) <> None.
Proof.
  apply (X12_first_event_stays_bound Sample.shop Sample.now [None; Some "norte"]
           (mkState None [])).
  - vm_compute. reflexivity.
  - left. discriminate.
Defined.

(** X13.  In a later region whose log has no event that mentions "admin",
    the index left by an earlier region is looked up in the events of
    this region: when the log is not longer than the index, the lookup
    raises [IndexError]. *)
Theorem X13_stale_index_out_of_range (w : World) (i : nat) (r : region)
    (browser_log events : list pyval) :
  performance_log w (region_url r) = Ok browser_log ->
  mapM (_process_browser_log_entry w) browser_log = Ok events ->
  Forall (fun event => mentions_admin event = false) events ->
  List.length events <= i ->
  fetch_products w (Some i) r = Raise IndexError.
Proof.
  intros Hlog Hev Hnone Hlen.
  rewrite (fetch_products_stale _ _ _ _ _ Hlog Hev Hnone).
  unfold list_getitem.
  rewrite (proj2 (nth_error_None events i) Hlen). reflexivity.
Qed.

Lemma X13_stale_index_out_of_range_witness :
  fetch_products Sample.shop (Some 2) (Some "sur") = Raise IndexError.
Proof.
  eapply (X13_stale_index_out_of_range Sample.shop 2 (Some "sur")).
  - reflexivity.
  - vm_compute. reflexivity.
  - repeat constructor.
  - simpl. lia.
Defined.

(** ** More on the aggregation *)

(** X14.  The first exception ends the run: when the iteration of a
    region raises, the run raises the same exception, the tables of the
    regions before it are lost and the regions after it are not
    visited. *)
Theorem X14_first_exception_ends_run (w : World) (pre : list region) (r : region)
    (post : list region) (st : loop_state) (e : exn) :
  regions_loop w (datetime_now w) (mkState None []) pre = Ok st ->
  region_body w (datetime_now w) st r = Raise e ->
  webscraping_ara w (pre ++ r :: post)%list = Raise e.
Proof.
  intros Hpre Hr. unfold webscraping_ara.
  rewrite regions_loop_app, Hpre. cbn [bind regions_loop]. rewrite Hr. reflexivity.
Qed.

Lemma X14_first_exception_ends_run_witness :
  webscraping_ara Sample.shop ([None] ++ Some "centro" :: [Some "norte"])%list
  = Raise WebDriverException.
Proof.
  eapply (X14_first_exception_ends_run Sample.shop [None] (Some "centro")
            [Some "norte"]).
  - vm_compute. reflexivity.
  - vm_compute. reflexivity.
Defined.

(** X15.  A run returns a table exactly when its loop meets no exception
    and at least one region is not skipped. *)
Theorem X15_run_returns_iff (w : World) (regions : list region) :
  (exists df, webscraping_ara w regions = Ok df) <->
  (exists groups,
      scraped w (datetime_now w) None regions groups /\ groups <> []).
Proof.
  split.
  - intros [df H].
    destruct (webscraping_ara_scraped _ _ _ H) as [groups [Hsc _]].
    exists groups. split; [exact Hsc |]. intros ->.
    destruct (scraped_regions_loop _ _ _ _ _ Hsc []) as [fe' Hloop].
    unfold webscraping_ara in H. rewrite Hloop in H. discriminate H.
  - intros [groups [Hsc Hne]].
    destruct (scraped_regions_loop _ _ _ _ _ Hsc []) as [fe' Hloop].
    unfold webscraping_ara. rewrite Hloop. cbn [bind products_dataframe_list app].
    destruct groups as [| g groups]; [contradiction Hne; reflexivity |].
    eexists. reflexivity.
Qed.

Lemma concat_all_nil {A : Type} (ls : list (list A)) :
  Forall (fun l => l = []) ls -> List.concat ls = [].
Proof.
  induction 1 as [| l ls Hl _ IH]; simpl; [reflexivity |].
  rewrite Hl, IH. reflexivity.
Qed.

Lemma union_keys_subset (ks acc : list string) :
  (forall k, In k ks -> In k acc) -> union_keys acc ks = acc.
Proof.
  induction ks as [| x ks IH]; intros Hsub; simpl.
  - reflexivity.
  - assert (Hx : mem_string x acc = true)
      by (apply mem_string_In, Hsub; left; reflexivity).
    rewrite Hx. apply IH. intros k Hk. apply Hsub. right. exact Hk.
Qed.

Lemma fold_union_subset {A : Type} (labels : A -> list string) (xs : list A)
    (acc : list string) :
  (forall x, In x xs -> forall k, In k (labels x) -> In k acc) ->
  fold_union labels xs acc = acc.
Proof.
  unfold fold_union. induction xs as [| x xs IH]; intros Hsub; simpl.
  - reflexivity.
  - rewrite union_keys_subset by (apply Hsub; left; reflexivity).
    apply IH. intros y Hy. apply Hsub. right. exact Hy.
Qed.

Lemma union_keys_fresh (ks acc : list string) :
  NoDup (acc ++ ks) -> union_keys acc ks = (acc ++ ks)%list.
Proof.
  revert acc. induction ks as [| x ks IH]; intros acc Hnd; simpl.
  - rewrite app_nil_r. reflexivity.
  - destruct (NoDup_app_head _ _ _ Hnd) as [Hfresh Hnd'].
    destruct (mem_string x acc) eqn:E.
    + apply mem_string_In in E. contradiction.
    + rewrite (IH _ Hnd'), <- app_assoc. reflexivity.
Qed.

(** X16.  A region whose payload has an empty list of products is not
    skipped: it yields an empty table.  A run in which every table is
    empty, and there is at least one, returns the empty table: no row, no
    column, and no [ValueError]. *)
Theorem X16_empty_payloads_give_empty_table (w : World) (regions : list region)
    (groups : list group) :
  scraped w (datetime_now w) None regions groups ->
  groups <> [] ->
  Forall (fun g => snd g = []) groups ->
  webscraping_ara w regions = Ok (mkDataFrame [] [] []).
Proof.
  intros Hsc Hne Hempty.
  destruct (scraped_regions_loop _ _ _ _ _ Hsc []) as [fe' Hloop].
  unfold webscraping_ara. rewrite Hloop. cbn [bind products_dataframe_list app].
  assert (Htabs : Forall (fun t => t = mkDataFrame [] [] []) (map group_table groups)).
  { apply Forall_map. eapply Forall_impl; [| exact Hempty].
    intros [r pairs] Hg. simpl in Hg. subst pairs. reflexivity. }
  destruct (map group_table groups) as [| t ts] eqn:E.
  - destruct groups; [contradiction Hne; reflexivity | discriminate E].
  - unfold pd_concat. cbn [bind]. unfold reset_index. cbn [df_columns df_rows].
    assert (Hrows : List.concat (map df_rows (t :: ts)) = []).
    { apply concat_all_nil, Forall_map.
      eapply Forall_impl; [| exact Htabs]. intros x ->. reflexivity. }
    assert (Hcols : fold_union df_columns (t :: ts) [] = []).
    { apply fold_union_subset. intros x Hx k Hk.
      rewrite Forall_forall in Htabs. rewrite (Htabs x Hx) in Hk. exact Hk. }
    rewrite Hrows, Hcols. reflexivity.
Qed.

Lemma X16_empty_payloads_give_empty_table_witness :
  webscraping_ara Sample.bare [None; Some "norte"] = Ok (mkDataFrame [] [] []).
Proof.
  apply (X16_empty_payloads_give_empty_table Sample.bare [None; Some "norte"]
           [(None, []); (Some "norte", [])]).
  - eapply scraped_table;
      [vm_compute; reflexivity | reflexivity | vm_compute; reflexivity
      | reflexivity | reflexivity | reflexivity | constructor |].
    eapply scraped_table;
      [vm_compute; reflexivity | reflexivity | vm_compute; reflexivity
      | reflexivity | reflexivity | reflexivity | constructor |].
    constructor.
  - discriminate.
  - repeat constructor.
Defined.

Lemma group_table_columns_fields (w : World) (now : datetime) (g : group) :
  Forall (fun pr => product_row w now (fst g) (fst pr) = Ok (snd pr)) (snd g) ->
  forall k, In k (df_columns (group_table g)) -> In k output_fields.
Proof.
  intros Hall k Hk. unfold group_table in Hk.
  rewrite DataFrame_of_records_columns in Hk.
  apply fold_union_In in Hk. destruct Hk as [[] | [row [Hrow Hk]]].
  unfold group_rows in Hrow. apply in_map_iff in Hrow.
  destruct Hrow as [pr [<- Hpr]]. rewrite Forall_forall in Hall.
  destruct (product_row_fields _ _ _ _ _ (Hall pr Hpr)) as [Hsub _].
  apply Hsub. exact Hk.
Qed.

(** X17.  The columns come in order of first appearance.  When the first
    row of the table is made from a product whose "meta" is true (the
    regions before its region, if any, having empty payloads), the
    columns of the returned table are the 25 output fields in the order
    the source assigns them. *)
Theorem X17_columns_in_assignment_order (w : World) (regions : list region)
    (empties : list group) (r : region) (p : pyval) (row : pydict)
    (pairs : list (pyval * pydict)) (rest : list group) (meta : pyval) :
  scraped w (datetime_now w) None regions
          (empties ++ (r, (p, row) :: pairs) :: rest)%list ->
  Forall (fun g => snd g = []) empties ->
  py_get p "meta" = Ok meta ->
  truthy meta = true ->
  exists df,
    webscraping_ara w regions = Ok df /\ df_columns df = output_fields.
Proof.
  intros Hsc Hempty Hmeta Ht.
  set (g := (r, (p, row) :: pairs)) in *.
  destruct (scraped_regions_loop _ _ _ _ _ Hsc []) as [fe' Hloop].
  pose proof (scraped_rows_fields _ _ _ _ _ Hsc) as Hrows.
  unfold webscraping_ara. rewrite Hloop. cbn [bind products_dataframe_list app].
  assert (Hcols : fold_union df_columns (map group_table (empties ++ g :: rest)) []
                  = output_fields).
  { unfold fold_union. rewrite map_app, fold_left_app.
    fold (fold_union df_columns (map group_table empties) []).
    rewrite fold_union_subset.
    2:{ intros t Ht' k Hk. apply in_map_iff in Ht'.
        destruct Ht' as [[r0 pairs0] [<- Hg0]].
        rewrite Forall_forall in Hempty. specialize (Hempty _ Hg0).
        simpl in Hempty. subst pairs0. exact Hk. }
    cbn [map fold_left].
    assert (Hg : union_keys [] (df_columns (group_table g)) = output_fields).
    { assert (Hgall : Forall (fun pr => product_row w (datetime_now w) (fst g) (fst pr)
                                        = Ok (snd pr)) (snd g)).
      { rewrite Forall_forall in Hrows. apply Hrows.
        apply in_or_app. right. left. reflexivity. }
      assert (Hfirst : df_columns (group_table g) = output_fields).
      { unfold group_table at 1. rewrite DataFrame_of_records_columns.
        unfold g at 1, group_rows. cbn [snd map fold_union fold_left].
        inversion Hgall as [| pr prs Hrow Hprs]; subst.
        destruct (product_row_key_order _ _ _ _ _ Hrow) as [meta' [Hmeta' Hkeys]].
        cbn [fst] in Hmeta'. rewrite Hmeta in Hmeta'.
        inversion Hmeta'; subst meta'. rewrite Ht in Hkeys.
        cbn [snd] in Hkeys. rewrite Hkeys.
        rewrite (union_keys_fresh output_fields []) by exact output_fields_NoDup.
        cbn [app].
        fold (fold_union dict_keys (map snd pairs) output_fields).
        apply fold_union_subset. intros row' Hrow' k Hk.
        apply in_map_iff in Hrow'. destruct Hrow' as [pr' [<- Hpr']].
        rewrite Forall_forall in Hprs.
        destruct (product_row_fields _ _ _ _ _ (Hprs pr' Hpr')) as [Hsub _].
        apply Hsub. exact Hk. }
      rewrite Hfirst. apply (union_keys_fresh output_fields []).
      exact output_fields_NoDup. }
    rewrite Hg.
    fold (fold_union df_columns (map group_table rest) output_fields).
    apply fold_union_subset. intros t Ht' k Hk.
    apply in_map_iff in Ht'. destruct Ht' as [g' [<- Hg']].
    apply (group_table_columns_fields w (datetime_now w) g'); [| exact Hk].
    rewrite Forall_forall in Hrows. apply Hrows.
    apply in_or_app. right. right. exact Hg'. }
  destruct (map group_table (empties ++ g :: rest)) as [| t ts] eqn:E.
  - destruct empties; discriminate E.
  - eexists. split; [reflexivity |].
    unfold reset_index. cbn [df_columns]. exact Hcols.
Qed.

Lemma X17_columns_in_assignment_order_witness :
  exists df,
    webscraping_ara Sample.shop [None] = Ok df /\ df_columns df = output_fields.
Proof.
  eapply (X17_columns_in_assignment_order Sample.shop [None] [] None Sample.milk
            (nth 0 (df_rows Sample.national_norte) [])
            [(Sample.rice, nth 1 (df_rows Sample.national_norte) [])] []).
  - eapply scraped_table;
      [vm_compute; reflexivity | reflexivity | vm_compute; reflexivity
      | reflexivity | reflexivity | reflexivity | repeat constructor
      | constructor].
  - constructor.
  - reflexivity.
  - reflexivity.
Defined.

(** ** The renderings of the timestamp *)

Lemma zero_pad_2_width (n : nat) :
  n < 10 * 10 -> String.length (zero_pad 2 n) = 2.
Proof.
  intros Hn.
  assert (Hall : forallb (fun k => Nat.eqb (String.length (zero_pad 2 k)) 2)
                         (seq 0 (10 * 10)) = true) by (vm_compute; reflexivity).
  rewrite forallb_forall in Hall. apply Nat.eqb_eq, Hall, in_seq. lia.
Qed.

Lemma zero_pad_4_width (n : nat) :
  10 * 10 * 10 <= n < 10 * 10 * 10 * 10 -> String.length (zero_pad 4 n) = 4.
Proof.
  intros Hn.
  assert (Hall : forallb (fun k => Nat.eqb (String.length (zero_pad 4 k)) 4)
                         (seq (10 * 10 * 10) (9 * 10 * 10 * 10)) = true)
    by (vm_compute; reflexivity).
  rewrite forallb_forall in Hall. apply Nat.eqb_eq, Hall, in_seq. lia.
Qed.

(** X18.  For a timestamp with a year of four digits, [extracted_date]
    has eight characters and [extracted_time] has eight characters, the
    colons at positions 2 and 5. *)
Theorem X18_date_and_time_have_fixed_width (t : datetime) :
  valid_datetime t ->
  String.length (strftime t "%Y%m%d") = 8 /\
  String.length (strftime t "%H:%M:%S") = 8 /\
  String.get 2 (strftime t "%H:%M:%S") = Some ":"%char /\
  String.get 5 (strftime t "%H:%M:%S") = Some ":"%char.
Proof.
  intros [Hy [Hm [Hd [Hh [Hmi Hs]]]]].
  destruct (strftime_date_time t) as [-> ->].
  pose proof (zero_pad_4_width (dt_year t) Hy) as Ly.
  assert (Lm : String.length (zero_pad 2 (dt_month t)) = 2)
    by (apply zero_pad_2_width; lia).
  assert (Ld : String.length (zero_pad 2 (dt_day t)) = 2)
    by (apply zero_pad_2_width; lia).
  assert (Lh : String.length (zero_pad 2 (dt_hour t)) = 2)
    by (apply zero_pad_2_width; lia).
  assert (Lmi : String.length (zero_pad 2 (dt_minute t)) = 2)
    by (apply zero_pad_2_width; lia).
  assert (Ls : String.length (zero_pad 2 (dt_second t)) = 2)
    by (apply zero_pad_2_width; lia).
  split; [| split].
  - rewrite !length_append, Ly, Lm, Ld. reflexivity.
  - rewrite !length_append, Lh, Lmi, Ls. reflexivity.
  - destruct (zero_pad 2 (dt_hour t)) as [| h1 [| h2 [| h3 hs]]]; try discriminate Lh.
    destruct (zero_pad 2 (dt_minute t)) as [| m1 [| m2 [| m3 ms]]];
      try discriminate Lmi.
    split; reflexivity.
Qed.

Lemma X18_date_and_time_have_fixed_width_witness :
  String.length (strftime Sample.now "%Y%m%d") = 8 /\
  String.length (strftime Sample.now "%H:%M:%S") = 8 /\
  String.get 2 (strftime Sample.now "%H:%M:%S") = Some ":"%char /\
  String.get 5 (strftime Sample.now "%H:%M:%S") = Some ":"%char.
Proof.
  apply (X18_date_and_time_have_fixed_width Sample.now).
  unfold valid_datetime. simpl. lia.
Defined.

(** ** The pages of the regions *)

Lemma append_inj_l (p x y : string) : p ++ x = p ++ y -> x = y.
Proof.
  induction p as [| c p IH]; simpl; intros H; [exact H |].
  inversion H. apply IH. assumption.
Qed.

Lemma append_slash_inj (a b : string) : a ++ "/" = b ++ "/" -> a = b.
Proof.
  revert b. induction a as [| x a IH]; intros [| y b] H; simpl in H.
  - reflexivity.
  - inversion H as [[Hy Hb]]. destruct b; discriminate Hb.
  - inversion H as [[Hx Ha]]. destruct a; discriminate Ha.
  - inversion H. f_equal. apply IH. assumption.
Qed.

Lemma region_url_inj (r1 r2 : region) :
  region_url r1 = region_url r2 -> r1 = r2.
Proof.
  destruct r1 as [a |], r2 as [b |]; unfold region_url; intros H.
  - apply append_inj_l, append_slash_inj in H. subst. reflexivity.
  - exfalso.
    change "https://aratiendas.com/rebajon/"
      with ("https://aratiendas.com/rebajon/" ++ "") in H at 2.
    apply append_inj_l in H. destruct a; discriminate H.
  - exfalso.
    change "https://aratiendas.com/rebajon/"
      with ("https://aratiendas.com/rebajon/" ++ "") in H at 1.
    apply append_inj_l in H. destruct b; discriminate H.
  - reflexivity.
Qed.

(** X19.  Different regions are fetched from different pages, the
    national page included: no region name makes the URL of the national
    page, and two names never share a URL. *)
Theorem X19_region_url_injective (r1 r2 : region) :
  r1 <> r2 -> region_url r1 <> region_url r2.
Proof.
  intros Hne H. apply Hne, region_url_inj, H.
Qed.

Lemma X19_region_url_injective_witness :
  region_url None <> region_url (Some "").
Proof.
  apply (X19_region_url_injective None (Some "")). discriminate.
Defined.

(** A run of the scan on the national page of the sample: the catalog
    exchange is the second event, and its body is fetched whatever index
    an earlier region left. *)
Lemma fetch_products_first_admin_witness :
  fetch_products Sample.shop (Some 7) None
  = (params <- py_getitem (Sample.catalog_event "1000.2") "params" ;;
     request_id <- py_getitem params "requestId" ;;
     response <- execute_cdp_cmd Sample.shop (region_url None) request_id ;;
     products <- py_get response "body" ;;
     Ok (Some (List.length [Sample.page_event]), products)).
Proof.
  apply (fetch_products_first_admin Sample.shop (Some 7) None
           [Sample.log_entry Sample.page_text;
            Sample.log_entry (Sample.catalog_text "1000.2")]
           [Sample.page_event] (Sample.catalog_event "1000.2") []).
  - reflexivity.
  - vm_compute. reflexivity.
  - repeat constructor.
  - vm_compute. reflexivity.
Defined.

(** ** Payloads that are not lists, and the regions of the rows *)

Lemma get_product_info_of_string (w : World) (s : string) :
  _get_product_info w (PStr s) = Raise AttributeError.
Proof. reflexivity. Qed.

(** X21.  A payload whose "data" is not a list but a map or a string
    that is not empty passes the length check and is iterated key by key
    or character by character: the first item is a string, and the
    normalizer raises [AttributeError] on it. *)
Theorem X21_data_map_or_string_raises (w : World) (now : datetime) (r : region)
    (body list_products : pyval) :
  decode_payload w body = Ok list_products ->
  (exists k v d, list_products = PDict ((k, v) :: d)) \/
  (exists c s, list_products = PStr (String c s)) ->
  region_rows w now r body = Raise AttributeError.
Proof.
  intros Hd Hshape. unfold region_rows. rewrite Hd. cbn [bind].
  destruct Hshape as [[k [v [d ->]]] | [c [s ->]]]; reflexivity.
Qed.

Lemma X21_data_map_or_string_raises_witness :
  region_rows (mkWorld Sample.now Sample.sample_log Sample.sample_cdp
                 (fun _ => Ok (PDict [("data", PDict [("items", PList [])])]))
                 Sample.sample_http)
              Sample.now None (PStr "{}")
  = Raise AttributeError.
Proof.
  eapply (X21_data_map_or_string_raises _ Sample.now None (PStr "{}")).
  - reflexivity.
  - left. eexists. eexists. eexists. reflexivity.
Defined.

Lemma scraped_regions_member (w : World) (now : datetime) (fe : option nat)
    (regions : list region) (groups : list group) :
  scraped w now fe regions groups ->
  Forall (fun g => In (fst g) regions) groups.
Proof.
  induction 1 as [fe
                 | fe r fe' body regions groups _ _ _ IH
                 | fe r fe' body lp n items pairs regions groups
                     _ _ _ _ _ _ _ _ IH].
  - constructor.
  - eapply Forall_impl; [| exact IH]. intros g Hg. right. exact Hg.
  - constructor; [left; reflexivity |].
    eapply Forall_impl; [| exact IH]. intros g Hg. right. exact Hg.
Qed.

(** X22.  Every row of the returned table is tagged with a region of the
    list the run was given: its [extracted_region] is the name of one of
    them, or [None] when the list has the national page. *)
Theorem X22_rows_tagged_with_given_regions (w : World) (regions : list region)
    (df : DataFrame) :
  webscraping_ara w regions = Ok df ->
  Forall (fun row => exists r,
              In r regions /\
              dict_lookup row "extracted_region" = Some (region_value r))
         (df_rows df).
Proof.
  intros H. destruct (webscraping_ara_scraped _ _ _ H) as [groups [Hsc [Hrows _]]].
  rewrite Hrows. apply Forall_forall. intros row Hrow.
  apply in_concat in Hrow. destruct Hrow as [rows [Hrows' Hin]].
  apply in_map_iff in Hrows'. destruct Hrows' as [g [<- Hg]].
  pose proof (scraped_regions_member _ _ _ _ _ Hsc) as Hmem.
  pose proof (scraped_tagged _ _ _ _ _ Hsc) as Htag.
  rewrite Forall_forall in Hmem, Htag.
  exists (fst g). split; [exact (Hmem g Hg) |].
  specialize (Htag g Hg). rewrite Forall_forall in Htag.
  destruct (Htag row Hin) as [Hreg _]. exact Hreg.
Qed.

Lemma X22_rows_tagged_with_given_regions_witness :
  Forall (fun row => exists r,
              In r [None; Some "norte"] /\
              dict_lookup row "extracted_region" = Some (region_value r))
         (df_rows Sample.national_norte).
Proof.
  apply (X22_rows_tagged_with_given_regions Sample.shop [None; Some "norte"]).
  vm_compute. reflexivity.
Defined.
